(** * PiNasSystem: the storage routes of [server.ts]

    A shallow embedding of the Express routes of [src/server.ts]: the two
    SQLite tables ([folders], [files]), the uploads directory, and the
    handlers registered in [startServer].  Every handler is a function from
    the state of the two stores to the new state and the HTTP response.

    Conventions of the embedding:
    - a table is the list of its rows in rowid order; [id TEXT PRIMARY KEY]
      is enforced by the insert statements;
    - the uploads directory is the set of its entry names; a row's [name]
      is the entry it refers to ([path.join(UPLOADS_DIR, name)]);
    - a request field is any value that [express.json], the query parser
      or multer can deliver: absent, null, a boolean, a number, a string, an
      array or an object;
    - what the environment chooses (the [Math.random] ids, the
      [CURRENT_TIMESTAMP] defaults, the [Date.now()] and random number in
      the name multer generates) is an argument of the handler;
    - [size] is a byte count, a natural number; [SUM(size)] is exact. *)

From Stdlib Require Import NArith Lia Ascii.
From stdpp Require Import base decidable option list sorting gmap sets strings.

Local Open Scope string_scope.
Local Open Scope list_scope.
#[local] Set Warnings "-clear-no-such-hyp,-register-all".

(** ** Rows of the two tables *)

Module Folder.
Record t : Type := mk
  { id : string;
    name : string;
    parent_id : option string;
    created_at : string }.

#[global] Instance eq_dec : EqDecision t.
Proof. solve_decision. Defined.
End Folder.

Module File.
Record t : Type := mk
  { id : string;
    name : string;
    original_name : string;
    mime_type : string;
    size : N;
    folder_id : option string;
    upload_date : string }.

#[global] Instance eq_dec : EqDecision t.
Proof. solve_decision. Defined.

Definition set_original_name (v : string) (f : t) : t :=
  mk (id f) (name f) v (mime_type f) (size f) (folder_id f) (upload_date f).
End File.

Definition set_folder_name (v : string) (f : Folder.t) : Folder.t :=
  Folder.mk (Folder.id f) v (Folder.parent_id f) (Folder.created_at f).

(** ** The state of the two stores *)

(** Writes, in the order in which they took effect. *)
Inductive Effect : Type :=
| FsWrite (key : string)
| FsUnlink (key : string)
| DbInsertFolder (id : string)
| DbInsertFile (id : string)
| DbDeleteFilesOfFolder (folder_id : string)
| DbDeleteFolder (id : string)
| DbDeleteFile (id : string)
| DbUpdateFile (id : option string)
| DbUpdateFolder (id : option string).

(** [uploads] is UPLOADS_DIR; [stuck] are the entries whose removal the
    operating system refuses (EACCES, EPERM, EBUSY): [fs.unlinkSync] throws
    on them.  [journal] is not something the server keeps: it lists the
    writes to both stores as they happen, so that their order can be
    stated. *)
Record World : Type := mkWorld
  { folders : list Folder.t;
    files : list File.t;
    uploads : gset string;
    stuck : gset string;
    journal : list Effect }.

Definition with_folders (v : list Folder.t) (w : World) : World :=
  mkWorld v (files w) (uploads w) (stuck w) (journal w).
Definition with_files (v : list File.t) (w : World) : World :=
  mkWorld (folders w) v (uploads w) (stuck w) (journal w).
Definition with_uploads (v : gset string) (w : World) : World :=
  mkWorld (folders w) (files w) v (stuck w) (journal w).
Definition log (e : Effect) (w : World) : World :=
  mkWorld (folders w) (files w) (uploads w) (stuck w) (journal w ++ [e]).

(** ** JavaScript values of request fields *)

(** A number, by what the routes can see of it: whether it is truthy (not 0)
    and the text that SQLite compares and stores for it in a TEXT column. *)
Record JsNumber : Type := mkJsNumber
  { num_truthy : bool;
    num_text : string }.

(** [JsObj] is any object that is not an array; no route looks inside
    one. *)
Inductive JsVal : Type :=
| JsUndefined
| JsNull
| JsBool (b : bool)
| JsNum (n : JsNumber)
| JsStr (s : string)
| JsArr (items : list JsVal)
| JsObj.

(** [!v] is false exactly on the truthy values. *)
Definition truthy (v : JsVal) : bool :=
  match v with
  | JsUndefined | JsNull => false
  | JsBool b => b
  | JsNum n => num_truthy n
  | JsStr s => bool_decide (s ≠ "")
  | JsArr _ | JsObj => true
  end.

(** [v === s] for a string literal [s] *)
Definition is_str (s : string) (v : JsVal) : bool :=
  match v with
  | JsStr x => bool_decide (x = s)
  | _ => false
  end.

(** [v === "root" ? null : v] *)
Definition from_wire (v : JsVal) : JsVal :=
  if is_str "root" v then JsNull else v.

(** The fields as the client sends them: absent, null or a string. *)
Definition scalar (v : JsVal) : bool :=
  match v with
  | JsUndefined | JsNull | JsStr _ => true
  | _ => false
  end.

(** ** Statements that may throw *)

Inductive Exn : Type :=
| TypeError          (* better-sqlite3 cannot bind the value *)
| RangeError         (* too few or too many parameter values *)
| ConstraintError    (* PRIMARY KEY or NOT NULL violated *)
| FsError.           (* a [fs] call failed *)

Inductive Outcome (A : Type) : Type :=
| Ok (a : A)
| Thrown (e : Exn).
Arguments Ok {A} a.
Arguments Thrown {A} e.

(** A computation reads and writes the stores; what it wrote before it threw
    stays written (no statement of the server runs in a transaction). *)
Definition M (A : Type) : Type := World → World * Outcome A.

Definition ret {A} (a : A) : M A := λ w, (w, Ok a).
Definition throw {A} (e : Exn) : M A := λ w, (w, Thrown e).
Definition bind {A B} (m : M A) (k : A → M B) : M B :=
  λ w, match m w with
       | (w', Ok a) => k a w'
       | (w', Thrown e) => (w', Thrown e)
       end.
Definition gets {A} (f : World → A) : M A := λ w, (w, Ok (f w)).
Definition modify (f : World → World) : M unit := λ w, (f w, Ok tt).

#[global] Instance M_ret : MRet M := @ret.
#[global] Instance M_bind : MBind M := λ A B k m, bind m k.

(** [xs.forEach(f)] *)
Fixpoint for_each {A} (xs : list A) (f : A → M unit) : M unit :=
  match xs with
  | [] => ret tt
  | x :: xs' => f x ;; for_each xs' f
  end.

(** ** Responses *)

Inductive Body : Type :=
| BError (error : string)
| BContents (folders : list Folder.t) (files : list File.t)
| BCreated (id : string) (name : JsVal)
| BSuccess
| BFiles (files : list File.t)
| BStats (count totalSize : N)
| BAttachment (key filename : string)
| BInline (key : string)
| BDefaultError.

Record Response : Type := json { status : N; body : Body }.

Definition Handler : Type := World → World * Response.

(** [try { body } catch (error) { res.status(..).json(..) }] *)
Definition try_catch (body : M Response) (on_error : Response) : Handler :=
  λ w, match body w with
       | (w', Ok r) => (w', r)
       | (w', Thrown _) => (w', on_error)
       end.

(** ** better-sqlite3 and SQLite *)

(** What better-sqlite3 binds for one value: NULL for [null] and
    [undefined], the text for a string, the number for a number (text, once
    SQLite compares it with or stores it in a TEXT column); anything else it
    refuses. *)
Definition bind_value (v : JsVal) : option (option string) :=
  match v with
  | JsUndefined | JsNull => Some None
  | JsStr s => Some (Some s)
  | JsNum n => Some (Some (num_text n))
  | JsBool _ | JsArr _ | JsObj => None
  end.

(** The arguments of [.run], [.get] or [.all], left to right: an array is
    spread, each item one parameter; an object stands for named parameters,
    of which the statements of the server have none, and a second object is
    refused; any other value is one parameter. *)
Fixpoint bind_arguments (args : list JsVal) (bound_object : bool)
  : Exn + list (option string) :=
  match args with
  | [] => inr []
  | JsArr items :: rest =>
      match mapM bind_value items, bind_arguments rest bound_object with
      | Some xs, inr ys => inr (xs ++ ys)
      | None, _ => inl TypeError
      | _, inl e => inl e
      end
  | JsObj :: rest =>
      if bound_object then inl TypeError else bind_arguments rest true
  | v :: rest =>
      match bind_value v, bind_arguments rest bound_object with
      | Some x, inr ys => inr (x :: ys)
      | None, _ => inl TypeError
      | _, inl e => inl e
      end
  end.

(** The parameters of a statement with [param_count] of them, after the
    leading arguments that are plain strings or numbers, one parameter
    each. *)
Definition bind_params (args : list JsVal) (param_count : nat)
  : M (list (option string)) :=
  match bind_arguments args false with
  | inl e => throw e
  | inr xs => if decide (length xs = param_count) then ret xs
              else throw RangeError
  end.

(** What an argument supplies when the statement awaits exactly one
    parameter from it: its own value, or the only item of an array. *)
Definition sole_param (v : JsVal) : option (option string) :=
  match v with
  | JsArr [x] => bind_value x
  | JsArr _ | JsObj => None
  | _ => bind_value v
  end.

(** A value for a NOT NULL column. *)
Definition not_null (v : option string) : M string :=
  match v with
  | Some s => ret s
  | None => throw ConstraintError
  end.

(** ORDER BY on a TEXT column compares bytes (the BINARY collation). *)
Definition text_le (a b : string) : Prop := String.leb a b = true.

#[global] Instance text_le_dec a b : Decision (text_le a b).
Proof. unfold text_le. apply _. Defined.

Definition name_asc (a b : Folder.t) : Prop :=
  text_le (Folder.name a) (Folder.name b).
Definition upload_date_desc (a b : File.t) : Prop :=
  text_le (File.upload_date b) (File.upload_date a).

#[global] Instance name_asc_dec a b : Decision (name_asc a b).
Proof. unfold name_asc. apply _. Defined.
#[global] Instance upload_date_desc_dec a b : Decision (upload_date_desc a b).
Proof. unfold upload_date_desc. apply _. Defined.

(** SELECT * FROM folders WHERE parent_id IS ? ORDER BY name ASC *)
Definition select_folders_by_parent (p : option string) (w : World)
  : list Folder.t :=
  merge_sort name_asc (filter (λ f, Folder.parent_id f = p) (folders w)).

(** SELECT * FROM files WHERE folder_id IS ? ORDER BY upload_date DESC *)
Definition select_files_by_folder (p : option string) (w : World)
  : list File.t :=
  merge_sort upload_date_desc (filter (λ f, File.folder_id f = p) (files w)).

(** SELECT * FROM files ORDER BY upload_date DESC *)
Definition select_all_files (w : World) : list File.t :=
  merge_sort upload_date_desc (files w).

(** SELECT name FROM files WHERE folder_id = ? *)
Definition select_names_in_folder (id : string) (w : World) : list string :=
  File.name <$> filter (λ f, File.folder_id f = Some id) (files w).

(** SELECT * FROM files WHERE id = ?   (.get: the first row, or undefined) *)
Definition get_file (id : string) (w : World) : option File.t :=
  head (filter (λ f, File.id f = id) (files w)).

(** INSERT INTO folders (id, name, parent_id) VALUES (?, ?, ?) *)
Definition insert_folder (id : string) (name parent_id : JsVal)
    (now : string) : M unit :=
  params ← bind_params [name; parent_id] 2;
  match params with
  | [name'; parent_id'] =>
      name'' ← not_null name';
      known ← gets (λ w, bool_decide (id ∈ Folder.id <$> folders w));
      if known : bool then throw ConstraintError
      else modify (λ w, log (DbInsertFolder id)
             (with_folders
                (folders w ++ [Folder.mk id name'' parent_id' now]) w))
  | _ => throw RangeError
  end.

(** INSERT INTO files (id, name, original_name, mime_type, size, folder_id)
    VALUES (?, ?, ?, ?, ?, ?) *)
Definition insert_file (id name original_name mime_type : string) (size : N)
    (folder_id : JsVal) (now : string) : M unit :=
  params ← bind_params [folder_id] 1;
  match params with
  | [folder_id'] =>
      known ← gets (λ w, bool_decide (id ∈ File.id <$> files w));
      if known : bool then throw ConstraintError
      else modify (λ w, log (DbInsertFile id)
             (with_files
                (files w ++
                   [File.mk id name original_name mime_type size folder_id'
                      now]) w))
  | _ => throw RangeError
  end.

(** DELETE FROM files WHERE folder_id = ? *)
Definition delete_files_of_folder (id : string) : M unit :=
  modify (λ w, log (DbDeleteFilesOfFolder id)
    (with_files (filter (λ f, File.folder_id f ≠ Some id) (files w)) w)).

(** DELETE FROM folders WHERE id = ? *)
Definition delete_folder_row (id : string) : M unit :=
  modify (λ w, log (DbDeleteFolder id)
    (with_folders (filter (λ f, Folder.id f ≠ id) (folders w)) w)).

(** DELETE FROM files WHERE id = ? *)
Definition delete_file_row (id : string) : M unit :=
  modify (λ w, log (DbDeleteFile id)
    (with_files (filter (λ f, File.id f ≠ id) (files w)) w)).

(** UPDATE files SET original_name = ? WHERE id = ? *)
Definition update_original_name (newName id : JsVal) : M unit :=
  params ← bind_params [newName; id] 2;
  match params with
  | [v; i] =>
      hit ← gets (λ w, bool_decide (i ∈ Some ∘ File.id <$> files w));
      match v with
      | None => if hit : bool then throw ConstraintError
                else modify (log (DbUpdateFile i))
      | Some s =>
          modify (λ w, log (DbUpdateFile i)
            (with_files ((λ f, if decide (Some (File.id f) = i)
                               then File.set_original_name s f else f)
                         <$> files w) w))
      end
  | _ => throw RangeError
  end.

(** UPDATE folders SET name = ? WHERE id = ? *)
Definition update_folder_name (newName id : JsVal) : M unit :=
  params ← bind_params [newName; id] 2;
  match params with
  | [v; i] =>
      hit ← gets (λ w, bool_decide (i ∈ Some ∘ Folder.id <$> folders w));
      match v with
      | None => if hit : bool then throw ConstraintError
                else modify (log (DbUpdateFolder i))
      | Some s =>
          modify (λ w, log (DbUpdateFolder i)
            (with_folders ((λ f, if decide (Some (Folder.id f) = i)
                                 then set_folder_name s f else f)
                           <$> folders w) w))
      end
  | _ => throw RangeError
  end.

(** SELECT COUNT( * ) as count, SUM(size) as totalSize FROM files:
    SUM over no rows is NULL. *)
Definition sum_sizes (l : list File.t) : N :=
  foldr (λ f acc, (File.size f + acc)%N) 0%N l.

Definition select_stats (w : World) : N * option N :=
  (N.of_nat (length (files w)),
   match files w with
   | [] => None
   | _ :: _ => Some (sum_sizes (files w))
   end).

(** [v || 0] on a number or null *)
Definition or_zero (v : option N) : N :=
  match v with
  | Some n => if (n =? 0)%N then 0%N else n
  | None => 0%N
  end.

(** ** The file system *)

(** fs.existsSync(path.join(UPLOADS_DIR, key)) *)
Definition existsSync (key : string) : M bool :=
  gets (λ w, bool_decide (key ∈ uploads w)).

(** fs.unlinkSync(path.join(UPLOADS_DIR, key)) *)
Definition unlinkSync (key : string) : M unit :=
  λ w, if bool_decide (key ∈ uploads w) && negb (bool_decide (key ∈ stuck w))
       then (log (FsUnlink key) (with_uploads (uploads w ∖ {[key]}) w), Ok tt)
       else (w, Thrown FsError).

(** [if (fs.existsSync(filePath)) fs.unlinkSync(filePath);] with
    [filePath = path.join(UPLOADS_DIR, key)], as both delete routes have it. *)
Definition unlink_if_exists (key : string) : M unit :=
  present ← existsSync key;
  if present : bool then unlinkSync key else mret tt.

(** ** multer *)

(** The file part of a multipart request, with what the storage engine draws
    for its name: [Date.now()] and [Math.round(Math.random() * 1e9)], as
    printed by JavaScript. *)
Record Part : Type := mkPart
  { part_originalname : string;
    part_mimetype : string;
    part_size : N;
    date_now : string;
    random_1e9 : string }.

(** [req.file] *)
Record MulterFile : Type := mkMulterFile
  { filename : string;
    originalname : string;
    mimetype : string;
    size : N }.

(** The [filename] callback of [multer.diskStorage]. *)
Definition storage_filename (p : Part) : string :=
  let uniqueSuffix := date_now p +:+ "-" +:+ random_1e9 p in
  uniqueSuffix +:+ "-" +:+ part_originalname p.

(** [upload.single("file")]: the part, when there is one and it has a file
    name, is written to UPLOADS_DIR under the generated name before the
    handler runs; a part without a file name is skipped and [req.file] stays
    undefined. *)
Definition upload_single (part : option Part) (w : World)
  : World * option MulterFile :=
  match part with
  | None => (w, None)
  | Some p =>
      if bool_decide (part_originalname p = "") then (w, None)
      else
        let key := storage_filename p in
        (log (FsWrite key) (with_uploads (uploads w ∪ {[key]}) w),
         Some (mkMulterFile key (part_originalname p) (part_mimetype p)
                 (part_size p)))
  end.

(** ** Express *)

(** [res.download(path, filename)] and [res.sendFile(path)] without a
    callback: the file is streamed when it exists; otherwise the error goes
    to [next] and Express answers with its own 404 page. *)
Definition res_download (key filename : string) (w : World) : Response :=
  if bool_decide (key ∈ uploads w) then json 200 (BAttachment key filename)
  else json 404 BDefaultError.

Definition res_sendFile (key : string) (w : World) : Response :=
  if bool_decide (key ∈ uploads w) then json 200 (BInline key)
  else json 404 BDefaultError.

(** ** The routes *)

(** GET /api/contents *)
Definition get_contents (folderId : JsVal) : Handler :=
  let folderId := from_wire folderId in
  try_catch
    (params ← bind_params [folderId] 1;
     match params with
     | [p] =>
         folders ← gets (select_folders_by_parent p);
         files ← gets (select_files_by_folder p);
         mret (json 200 (BContents folders files))
     | _ => throw RangeError
     end)
    (json 500 (BError "Failed to fetch contents")).

(** POST /api/folders; [id] is what [Math.random()] gave. *)
Definition post_folders (name parentId : JsVal) (id now : string) : Handler :=
  λ w,
  if negb (truthy name) then (w, json 400 (BError "Name is required"))
  else
    let pId := from_wire parentId in
    try_catch
      (insert_folder id name pId now;;
       mret (json 200 (BCreated id name)))
      (json 500 (BError "Failed to create folder")) w.

(** DELETE /api/folders/:id *)
Definition delete_folders (id : string) : Handler :=
  try_catch
    (filesInFolder ← gets (select_names_in_folder id);
     for_each filesInFolder unlink_if_exists;;
     delete_files_of_folder id;;
     delete_folder_row id;;
     mret (json 200 BSuccess))
    (json 500 (BError "Failed to delete folder")).

(** GET /api/files *)
Definition get_files : Handler :=
  try_catch
    (files ← gets select_all_files;
     mret (json 200 (BFiles files)))
    (json 500 (BError "Failed to fetch files")).

(** The handler of POST /api/upload, after multer; [fileId] is what
    [Math.random()] gave. *)
Definition post_upload_handler (file : option MulterFile) (folderId : JsVal)
    (fileId now : string) : Handler :=
  λ w,
  match file with
  | None => (w, json 400 (BError "No file uploaded"))
  | Some f =>
      let folderId := from_wire folderId in
      try_catch
        (insert_file fileId (filename f) (originalname f) (mimetype f)
           (size f) folderId now;;
         mret (json 200 (BCreated fileId (JsStr (originalname f)))))
        (json 500 (BError "Failed to save file metadata")) w
  end.

(** POST /api/upload *)
Definition post_upload (part : option Part) (folderId : JsVal)
    (fileId now : string) : Handler :=
  λ w, let (w1, file) := upload_single part w in
       post_upload_handler file folderId fileId now w1.

(** GET /api/files/:id/download *)
Definition get_download (id : string) : Handler :=
  λ w,
  match get_file id w with
  | None => (w, json 404 (BError "File not found"))
  | Some file => (w, res_download (File.name file) (File.original_name file) w)
  end.

(** DELETE /api/files/:id *)
Definition delete_files (id : string) : Handler :=
  λ w,
  match get_file id w with
  | None => (w, json 404 (BError "File not found"))
  | Some file =>
      try_catch
        (unlink_if_exists (File.name file);;
         delete_file_row id;;
         mret (json 200 BSuccess))
        (json 500 (BError "Failed to delete file")) w
  end.

(** GET /api/files/:id/view *)
Definition get_view (id : string) : Handler :=
  λ w,
  match get_file id w with
  | None => (w, json 404 (BError "File not found"))
  | Some file => (w, res_sendFile (File.name file) w)
  end.

(** POST /api/rename *)
Definition post_rename (id type newName : JsVal) : Handler :=
  λ w,
  if negb (truthy id) || negb (truthy type) || negb (truthy newName)
  then (w, json 400 (BError "Missing parameters"))
  else
    try_catch
      ((if is_str "file" type
        then update_original_name newName id
        else update_folder_name newName id);;
       mret (json 200 BSuccess))
      (json 500 (BError "Failed to rename")) w.

(** GET /api/stats *)
Definition get_stats : Handler :=
  try_catch
    (stats ← gets select_stats;
     mret (json 200 (BStats (or_zero (Some stats.1)) (or_zero stats.2))))
    (json 500 (BError "Failed to fetch stats")).

(** ** Requests and reachable states *)

Inductive Request : Type :=
| GetContents (folderId : JsVal)
| PostFolders (name parentId : JsVal) (id now : string)
| DeleteFolders (id : string)
| GetFiles
| PostUpload (part : option Part) (folderId : JsVal) (fileId now : string)
| GetDownload (id : string)
| DeleteFiles (id : string)
| GetView (id : string)
| PostRename (id type newName : JsVal)
| GetStats.

Definition serve (r : Request) : Handler :=
  match r with
  | GetContents folderId => get_contents folderId
  | PostFolders name parentId id now => post_folders name parentId id now
  | DeleteFolders id => delete_folders id
  | GetFiles => get_files
  | PostUpload part folderId fileId now => post_upload part folderId fileId now
  | GetDownload id => get_download id
  | DeleteFiles id => delete_files id
  | GetView id => get_view id
  | PostRename id type newName => post_rename id type newName
  | GetStats => get_stats
  end.

(** The stores when the tables have just been created. *)
Definition fresh (dir locked : gset string) : World :=
  mkWorld [] [] dir locked [].

(** The states the server passes through: it starts on empty tables and
    serves requests; between requests the uploads directory may change under
    it. *)
Inductive reachable : World → Prop :=
| reachable_fresh dir locked : reachable (fresh dir locked)
| reachable_serve w r : reachable w → reachable (serve r w).1
| reachable_disk w dir locked :
    reachable w →
    reachable (mkWorld (folders w) (files w) dir locked (journal w)).

(** The state after a sequence of requests, and the responses to them. *)
Fixpoint run (rs : list Request) (w : World) : World :=
  match rs with
  | [] => w
  | r :: rs' => run rs' (serve r w).1
  end.

Fixpoint responses (rs : list Request) (w : World) : list Response :=
  match rs with
  | [] => []
  | r :: rs' => (serve r w).2 :: responses rs' (serve r w).1
  end.

(** A successful-or-not UploadFile call: the part, the [folderId] field, and
    the id and timestamp the server draws for the row. *)
Definition upload_request (u : Part * JsVal * string * string) : Request :=
  let '(p, folderId, fileId, now) := u in
  PostUpload (Some p) folderId fileId now.

Definition uploaded_bytes (us : list (Part * JsVal * string * string)) : N :=
  foldr (λ u acc, (part_size u.1.1.1 + acc)%N) 0%N us.

(** [count] and [totalSize] as the rows of [files] give them. *)
Definition count_of (w : World) : N := N.of_nat (length (files w)).
Definition total_size_of (w : World) : N := sum_sizes (files w).

(** The sentinel of the wire never reaches a table. *)
Definition root_free (w : World) : Prop :=
  (∀ f, f ∈ folders w → Folder.parent_id f ≠ Some "root") ∧
  (∀ f, f ∈ files w → File.folder_id f ≠ Some "root").

(** [id TEXT PRIMARY KEY], on both tables. *)
Definition keys_unique (w : World) : Prop :=
  NoDup (Folder.id <$> folders w) ∧ NoDup (File.id <$> files w).

(** What one request can do to a table: nothing, delete the rows that fail
    a test, insert one row under a new key (a row that is [admitted]), or
    update rows without touching key or parent. *)
Inductive table_step {A} (key : A → string) (parent : A → option string)
    (admitted : A → Prop) : list A → list A → Prop :=
| table_same l : table_step key parent admitted l l
| table_delete (P : A → Prop) `{!∀ x, Decision (P x)} l :
    table_step key parent admitted l (filter P l)
| table_insert l x :
    key x ∉ key <$> l → admitted x →
    table_step key parent admitted l (l ++ [x])
| table_update g l :
    (∀ x, key (g x) = key x ∧ parent (g x) = parent x) →
    table_step key parent admitted l (g <$> l).

(** The requests whose [parentId] or [folderId] field is absent, null or a
    string, as the client sends it. *)
Definition scalar_folder_field (r : Request) : bool :=
  match r with
  | GetContents folderId => scalar folderId
  | PostFolders _ parentId _ _ => scalar parentId
  | PostUpload _ folderId _ _ => scalar folderId
  | _ => true
  end.

(** The states the server passes through when every request has such a
    field. *)
Inductive reachable_scalar : World → Prop :=
| reachable_scalar_fresh dir locked : reachable_scalar (fresh dir locked)
| reachable_scalar_serve w r :
    reachable_scalar w → scalar_folder_field r = true →
    reachable_scalar (serve r w).1
| reachable_scalar_disk w dir locked :
    reachable_scalar w →
    reachable_scalar (mkWorld (folders w) (files w) dir locked (journal w)).

(** ** A worked scenario

    Folder F1 at the root, folder F2 inside F1, and the ten bytes of A.txt
    uploaded into F2. *)
Definition a_txt : Part :=
  mkPart "A.txt" "text/plain" 10 "1700000000000" "123456789".
Definition b_txt : Part :=
  mkPart "B.txt" "text/plain" 7 "1700000000500" "42".
Definition c_txt : Part :=
  mkPart "C.txt" "text/plain" 5 "1700000000900" "7".

Definition scenario : World :=
  run [PostFolders (JsStr "F1") (JsStr "root") "f1" "2024-01-01 00:00:00";
       PostFolders (JsStr "F2") (JsStr "f1") "f2" "2024-01-01 00:00:01";
       PostUpload (Some a_txt) (JsStr "f2") "a" "2024-01-01 00:00:02"]
      (fresh ∅ ∅).

(** The row that the upload of A.txt inserts. *)
Definition a_txt_row : File.t :=
  File.mk "a" (storage_filename a_txt) "A.txt" "text/plain" 10 (Some "f2")
    "2024-01-01 00:00:02".

(** The same stores after the blob of A.txt was removed behind the server's
    back, and with the blob made undeletable. *)
Definition scenario_blob_gone : World := with_uploads ∅ scenario.
Definition scenario_blob_stuck : World :=
  mkWorld (folders scenario) (files scenario) (uploads scenario)
    {[storage_filename a_txt]} (journal scenario).

(** ** Further vocabulary for the routes *)

(** The routes registered with [app.get]. *)
Definition is_get (r : Request) : bool :=
  match r with
  | GetContents _ | GetFiles | GetDownload _ | GetView _ | GetStats => true
  | _ => false
  end.

(** The routes that run no INSERT and no DELETE on [files]. *)
Definition keeps_file_rows (r : Request) : bool :=
  match r with
  | PostUpload _ _ _ _ | DeleteFolders _ | DeleteFiles _ => false
  | _ => true
  end.

(** The folder a [folderId] of the wire stands for: what [from_wire] and the
    binding make of a string. *)
Definition decode_folder (s : string) : option string :=
  if decide (s = "root") then None else Some s.

(** The [folderId] the client sends for the folder it shows:
    [currentFolderId] is 'root' or the [id] of a folder row. *)
Definition to_wire (p : option string) : string :=
  match p with
  | None => "root"
  | Some id => id
  end.

(** No '-' in a string, as in the decimal print of a number that is not
    negative. *)
Fixpoint no_dash (s : string) : bool :=
  match s with
  | EmptyString => true
  | String c s' => negb (bool_decide (c = "-"%char)) && no_dash s'
  end.

(** ** The client's breadcrumb (App.navigateToFolder) *)

(** [currentFolderId] and [folderPath] of the component's state. *)
Record Nav : Type := mkNav
  { currentFolderId : string;
    folderPath : list Folder.t }.

(** The state of the first render. *)
Definition nav_start : Nav := mkNav "root" [].

(** The argument of [navigateToFolder]: a folder, or the string 'root'. *)
Inductive NavTarget : Type :=
| NavRoot
| NavFolder (folder : Folder.t).

(** [l.findIndex(p)], with [None] for -1. *)
Fixpoint findIndex {A} (p : A → bool) (l : list A) : option nat :=
  match l with
  | [] => None
  | x :: l' => if p x then Some 0 else S <$> findIndex p l'
  end.

Definition navigateToFolder (folder : NavTarget) (s : Nav) : Nav :=
  match folder with
  | NavRoot => mkNav "root" []
  | NavFolder folder =>
      let index :=
        findIndex (λ f, bool_decide (Folder.id f = Folder.id folder))
          (folderPath s) in
      match index with
      | Some index =>
          mkNav (Folder.id folder) (take (index + 1) (folderPath s))
      | None => mkNav (Folder.id folder) (folderPath s ++ [folder])
      end
  end.

(** The last crumb is the folder shown; no crumb means the root. *)
Definition crumbs_end_at_current (s : Nav) : Prop :=
  match last (folderPath s) with
  | None => currentFolderId s = "root"
  | Some f => currentFolderId s = Folder.id f
  end.

(** Folders of the scenario, as the client holds them. *)
Definition f1_row : Folder.t :=
  Folder.mk "f1" "F1" None "2024-01-01 00:00:00".
Definition f2_row : Folder.t :=
  Folder.mk "f2" "F2" (Some "f1") "2024-01-01 00:00:01".

(** * Properties *)

(** ** Text order *)

Lemma ascii_compare_N a b :
  Ascii.compare a b = (Ascii.N_of_ascii a ?= Ascii.N_of_ascii b)%N.
Proof. reflexivity. Qed.

Lemma string_compare_refl s : String.compare s s = Eq.
Proof.
  induction s as [|c s IH]; simpl; [done|].
  rewrite ascii_compare_N, N.compare_refl. done.
Qed.

Lemma string_compare_trans_le a b c :
  String.compare a b ≠ Gt → String.compare b c ≠ Gt → String.compare a c ≠ Gt.
Proof.
  revert b c. induction a as [|x a IH]; intros [|y b] [|z c]; simpl; try done.
  rewrite !ascii_compare_N.
  destruct (N.compare_spec (Ascii.N_of_ascii x) (Ascii.N_of_ascii y)) as [Hxy|Hxy|Hxy];
    destruct (N.compare_spec (Ascii.N_of_ascii y) (Ascii.N_of_ascii z)) as [Hyz|Hyz|Hyz];
    try done.
  - rewrite Hxy, Hyz, N.compare_refl. apply IH.
  - intros _ _. rewrite Hxy. by apply N.compare_lt_iff in Hyz as ->.
  - intros _ _. rewrite <- Hyz. by apply N.compare_lt_iff in Hxy as ->.
  - intros _ _. assert (Ascii.N_of_ascii x < Ascii.N_of_ascii z)%N as Hxz by lia.
    by apply N.compare_lt_iff in Hxz as ->.
Qed.

Lemma text_le_compare a b : text_le a b ↔ String.compare a b ≠ Gt.
Proof. unfold text_le, String.leb. destruct (String.compare a b); naive_solver. Qed.

#[global] Instance text_le_refl : Reflexive text_le.
Proof. intros s. apply text_le_compare. by rewrite string_compare_refl. Qed.

#[global] Instance text_le_trans : Transitive text_le.
Proof.
  intros a b c. rewrite !text_le_compare. apply string_compare_trans_le.
Qed.

#[global] Instance text_le_total : Total text_le.
Proof. intros a b. apply String.leb_total. Qed.

#[global] Instance name_asc_trans : Transitive name_asc.
Proof. intros a b c. unfold name_asc. apply text_le_trans. Qed.
#[global] Instance name_asc_total : Total name_asc.
Proof. intros a b. unfold name_asc. apply text_le_total. Qed.
#[global] Instance upload_date_desc_trans : Transitive upload_date_desc.
Proof. intros a b c ??. unfold upload_date_desc in *. by etrans. Qed.
#[global] Instance upload_date_desc_total : Total upload_date_desc.
Proof. intros a b. unfold upload_date_desc. apply text_le_total. Qed.

(** ** Lists *)

Lemma filter_all {A} (P : A → Prop) `{!∀ x, Decision (P x)} (l : list A) :
  (∀ x, x ∈ l → P x) → filter P l = l.
Proof.
  induction l as [|x l IH]; intros Hall; [done|].
  rewrite filter_cons_True by (apply Hall; left).
  f_equal. apply IH. intros y Hy. apply Hall. by right.
Qed.

Lemma fmap_fixed {A} (f : A → A) (l : list A) :
  (∀ x, x ∈ l → f x = x) → f <$> l = l.
Proof.
  intros Hfix. rewrite <- (list_fmap_id l) at 2.
  apply list_fmap_ext. intros i x Hx. apply Hfix.
  eapply list_elem_of_lookup_2. done.
Qed.

Lemma sum_sizes_app l k :
  sum_sizes (l ++ k) = (sum_sizes l + sum_sizes k)%N.
Proof. induction l as [|x l IH]; simpl; [done|]. rewrite IH. lia. Qed.

(** ** Running a computation *)

Lemma bind_run {A B} (m : M A) (k : A → M B) w :
  (m ≫= k) w = match m w with
               | (w', Ok a) => k a w'
               | (w', Thrown e) => (w', Thrown e)
               end.
Proof. reflexivity. Qed.

Ltac step_m :=
  repeat (rewrite bind_run || unfold gets, modify, mret, M_ret, ret, throw,
            existsSync, try_catch, not_null);
  simpl.

(** ** Removing blobs *)

Lemma unlink_if_exists_run key w :
  unlink_if_exists key w =
    if bool_decide (key ∈ uploads w)
    then if bool_decide (key ∈ stuck w)
         then (w, Thrown FsError)
         else (log (FsUnlink key) (with_uploads (uploads w ∖ {[key]}) w), Ok tt)
    else (w, Ok tt).
Proof.
  unfold unlink_if_exists, unlinkSync. step_m.
  repeat case_bool_decide; done.
Qed.

(** The loop never touches the tables; it only shrinks the directory. *)
Lemma for_each_unlink_frame keys w :
  let r := for_each keys unlink_if_exists w in
  folders r.1 = folders w ∧ files r.1 = files w ∧ stuck r.1 = stuck w ∧
  uploads r.1 ⊆ uploads w.
Proof.
  revert w. induction keys as [|k keys IH]; intros w; simpl.
  { done. }
  rewrite bind_run, unlink_if_exists_run.
  repeat case_bool_decide; simpl; try done.
  specialize (IH (log (FsUnlink k) (with_uploads (uploads w ∖ {[k]}) w))).
  simpl in IH. destruct IH as (-> & -> & -> & IH). split_and!; try done.
  set_solver.
Qed.

(** When it completes, every listed blob is gone and nothing else is. *)
Lemma for_each_unlink_done keys w w' :
  for_each keys unlink_if_exists w = (w', Ok tt) →
  uploads w' = uploads w ∖ list_to_set keys.
Proof.
  revert w. induction keys as [|k keys IH]; intros w; simpl.
  { intros [= <-]. set_solver. }
  rewrite bind_run, unlink_if_exists_run.
  repeat case_bool_decide; simpl; try done.
  - intros ->%IH. simpl. set_solver.
  - intros ->%IH. set_solver.
Qed.

(** It completes when no listed blob that is present is stuck. *)
Lemma for_each_unlink_completes keys w :
  (∀ k, k ∈ keys → k ∈ uploads w → k ∉ stuck w) →
  ∃ w', for_each keys unlink_if_exists w = (w', Ok tt).
Proof.
  revert w. induction keys as [|k keys IH]; intros w Hfree; simpl.
  { by eexists. }
  rewrite bind_run, unlink_if_exists_run.
  repeat case_bool_decide; simpl.
  - exfalso. eapply Hfree; [left|done..].
  - apply IH. simpl. intros k' Hk' Hin. apply Hfree; [by right|set_solver].
  - apply IH. intros k' Hk'. apply Hfree. by right.
Qed.

(** ** Queries *)

Lemma elem_of_select_all_files f w : f ∈ select_all_files w ↔ f ∈ files w.
Proof. unfold select_all_files. by rewrite merge_sort_Permutation. Qed.

(** ** DELETE /api/folders/:id *)

Lemma delete_folders_run id w :
  delete_folders id w =
    match for_each (select_names_in_folder id w) unlink_if_exists w with
    | (w1, Ok _) =>
        (log (DbDeleteFolder id)
           (with_folders (filter (λ f, Folder.id f ≠ id) (folders w1))
              (log (DbDeleteFilesOfFolder id)
                 (with_files
                    (filter (λ f, File.folder_id f ≠ Some id) (files w1)) w1))),
         json 200 BSuccess)
    | (w1, Thrown _) => (w1, json 500 (BError "Failed to delete folder"))
    end.
Proof.
  unfold delete_folders, delete_files_of_folder, delete_folder_row. step_m.
  by destruct (for_each _ _ w) as [w1 [[]|e]].
Qed.

(** C2, as the route has it: a successful DeleteFolder removes the folder
    row, the file rows directly in the folder and the blobs under the names
    of those rows, and nothing else: the rows of any other folder,
    descendants included, stay, and so does every blob whose name is not
    that of a file directly in the folder. *)
Theorem delete_folders_removes_direct_contents id w :
  status (delete_folders id w).2 = 200%N →
  let w' := (delete_folders id w).1 in
  folders w' = filter (λ f, Folder.id f ≠ id) (folders w) ∧
  files w' = filter (λ f, File.folder_id f ≠ Some id) (files w) ∧
  uploads w' = uploads w ∖ list_to_set (select_names_in_folder id w) ∧
  (∀ f, f ∈ files w → File.folder_id f = Some id →
        (f ∉ select_all_files w') ∧ (File.name f ∉ uploads w')) ∧
  (∀ f, f ∈ files w → File.folder_id f ≠ Some id → f ∈ select_all_files w') ∧
  (∀ d, d ∈ folders w → Folder.id d ≠ id → d ∈ folders w') ∧
  (∀ k, k ∉ select_names_in_folder id w → k ∈ uploads w' ↔ k ∈ uploads w) ∧
  (∀ f, f ∈ files w → File.folder_id f ≠ Some id →
        File.name f ∉ select_names_in_folder id w →
        File.name f ∈ uploads w → File.name f ∈ uploads w').
Proof.
  rewrite delete_folders_run.
  pose proof (for_each_unlink_frame (select_names_in_folder id w) w) as Hframe.
  pose proof (for_each_unlink_done (select_names_in_folder id w) w) as Hdone.
  destruct (for_each _ _ w) as [w1 [[]|e]]; simpl in *; [|done].
  intros _. destruct Hframe as (Hfo & Hfi & _ & _).
  specialize (Hdone w1 eq_refl). rewrite Hfo, Hfi, Hdone.
  split_and!; try done.
  - intros f Hf Hin. split.
    + rewrite elem_of_select_all_files. simpl.
      rewrite list_elem_of_filter. naive_solver.
    + apply not_elem_of_difference. right. apply elem_of_list_to_set.
      unfold select_names_in_folder. apply list_elem_of_fmap.
      exists f. split; [done|]. by apply list_elem_of_filter.
  - intros f Hf Hne. rewrite elem_of_select_all_files. simpl.
    by rewrite list_elem_of_filter.
  - intros d Hd Hne. by rewrite list_elem_of_filter.
  - intros k Hk. rewrite elem_of_difference, elem_of_list_to_set. tauto.
  - intros f _ _ Hk Hin.
    rewrite elem_of_difference, elem_of_list_to_set. tauto.
Qed.

(** C3, as the route has it: the route has no 404.  For an id that no folder
    row carries it leaves the folders table as it is and reports success,
    unless the removal of a blob throws, which is answered 500. *)
Theorem delete_folders_unknown_id id w :
  id ∉ Folder.id <$> folders w →
  let r := delete_folders id w in
  status r.2 ≠ 404%N ∧
  (r.2 = json 200 BSuccess ∨
   r.2 = json 500 (BError "Failed to delete folder")) ∧
  folders r.1 = folders w ∧
  ((∀ k, k ∈ select_names_in_folder id w → k ∈ uploads w → k ∉ stuck w) →
   r.2 = json 200 BSuccess).
Proof.
  intros Hid. rewrite delete_folders_run.
  pose proof (for_each_unlink_frame (select_names_in_folder id w) w) as Hframe.
  pose proof (for_each_unlink_completes (select_names_in_folder id w) w) as Hok.
  assert (filter (λ f, Folder.id f ≠ id) (folders w) = folders w) as Hsame.
  { apply filter_all. intros f Hf Heq. apply Hid. rewrite <- Heq.
    by apply list_elem_of_fmap_2. }
  destruct (for_each _ _ w) as [w1 [[]|e]]; simpl in *;
    destruct Hframe as (Hfo & _); rewrite Hfo.
  - rewrite Hsame. split_and!; try done. by left.
  - split_and!; try done; [by right|]. intros Hfree. by destruct (Hok Hfree).
Qed.

(** ** Binding parameters *)

Lemma bind_params_pure args n w : (bind_params args n w).1 = w.
Proof.
  unfold bind_params. destruct (bind_arguments args false); [done|].
  by case_decide.
Qed.

Lemma mapM_bind_value_length items xs :
  mapM bind_value items = Some xs → length xs = length items.
Proof. intros Hm. symmetry. by eapply length_mapM. Qed.

Lemma bind_params_one v w :
  bind_params [v] 1 w =
    match sole_param v with
    | Some x => (w, Ok [x])
    | None => (w, Thrown (match bind_arguments [v] false with
                          | inl e => e
                          | inr _ => RangeError
                          end))
    end.
Proof.
  unfold bind_params.
  destruct v as [| | | | |items|]; try reflexivity.
  destruct items as [|x [|y items]]; [reflexivity| |].
  - simpl. destruct (bind_value x); reflexivity.
  - cbn [sole_param bind_arguments].
    destruct (mapM bind_value (x :: y :: items)) as [xs|] eqn:Hm;
      [|reflexivity].
    apply mapM_bind_value_length in Hm.
    rewrite decide_False; [reflexivity|].
    rewrite length_app, Hm. simpl. lia.
Qed.

(** Two arguments for two parameters, the second one a scalar: the second
    parameter is that scalar. *)
Lemma bind_params_two_scalar a b xs w :
  scalar b = true →
  bind_params [a; b] 2 w = (w, Ok xs) →
  ∃ x, xs = [x; match b with JsStr s => Some s | _ => None end].
Proof.
  intros Hb. unfold bind_params.
  destruct b; try done;
    (destruct a as [| | | | |items|]; simpl; unfold ret, throw;
     try done; try (intros [= <-]; by eexists);
     destruct (mapM bind_value items) as [ys|]; [|done];
     case_decide as Hlen; [|done]; intros [= <-];
     rewrite length_app in Hlen; simpl in Hlen;
     destruct ys as [|y [|??]]; simpl in *; try lia; by eexists).
Qed.

Lemma bind_params_two_str s b w :
  scalar b = true →
  bind_params [JsStr s; b] 2 w =
    (w, Ok [Some s; match b with JsStr x => Some x | _ => None end]).
Proof. intros Hb. by destruct b. Qed.

(** ** The sentinel on the wire *)

Lemma from_wire_str s :
  default None (sole_param (from_wire (JsStr s))) = decode_folder s.
Proof.
  unfold from_wire, decode_folder. simpl.
  by case_bool_decide; [rewrite decide_True|rewrite decide_False].
Qed.

Lemma from_wire_scalar v :
  scalar v = true →
  sole_param (from_wire v) =
    Some (match v with JsStr s => decode_folder s | _ => None end).
Proof.
  destruct v as [| | | |s| |]; try done. intros _.
  unfold from_wire, decode_folder. simpl.
  by case_bool_decide; [rewrite decide_True|rewrite decide_False].
Qed.

Lemma from_wire_scalar_not_root v :
  scalar v = true → sole_param (from_wire v) ≠ Some (Some "root").
Proof.
  intros Hv. rewrite from_wire_scalar by done. destruct v; try done.
  unfold decode_folder. case_decide; congruence.
Qed.

(** ** POST /api/upload *)

Lemma insert_file_run id name original_name mime_type size folder_id now w :
  insert_file id name original_name mime_type size folder_id now w =
    match sole_param folder_id with
    | None => (w, Thrown (match bind_arguments [folder_id] false with
                          | inl e => e
                          | inr _ => RangeError
                          end))
    | Some q =>
        if bool_decide (id ∈ File.id <$> files w)
        then (w, Thrown ConstraintError)
        else (log (DbInsertFile id)
                (with_files
                   (files w ++
                      [File.mk id name original_name mime_type size q now])
                   w), Ok tt)
    end.
Proof.
  unfold insert_file. rewrite bind_run, bind_params_one.
  destruct (sole_param folder_id); [|done]. step_m. by case_bool_decide.
Qed.

(** A part without a file name: nothing is written and the route answers
    400. *)
Lemma post_upload_no_name p folderId fileId now w :
  part_originalname p = "" →
  post_upload (Some p) folderId fileId now w =
    (w, json 400 (BError "No file uploaded")).
Proof.
  intros Hname. unfold post_upload, upload_single.
  by rewrite bool_decide_eq_true_2.
Qed.

(** What the route does with a part that has a file name, by the outcome of
    the insert. *)
Lemma post_upload_run p folderId fileId now w :
  part_originalname p ≠ "" →
  let key := storage_filename p in
  let w1 := log (FsWrite key) (with_uploads (uploads w ∪ {[key]}) w) in
  post_upload (Some p) folderId fileId now w =
    if bool_decide (sole_param (from_wire folderId) = None) ||
       bool_decide (fileId ∈ File.id <$> files w)
    then (w1, json 500 (BError "Failed to save file metadata"))
    else (log (DbInsertFile fileId)
            (with_files
               (files w ++
                  [File.mk fileId key (part_originalname p) (part_mimetype p)
                     (part_size p)
                     (default None (sole_param (from_wire folderId))) now])
               w1),
          json 200 (BCreated fileId (JsStr (part_originalname p)))).
Proof.
  intros Hname. unfold post_upload, post_upload_handler, upload_single.
  rewrite bool_decide_eq_false_2 by done. simpl.
  unfold try_catch. rewrite bind_run, insert_file_run. simpl.
  destruct (sole_param (from_wire folderId)); simpl; [|done].
  by case_bool_decide.
Qed.

(** The status says whether the part had a file name. *)
Lemma post_upload_named p folderId fileId now w :
  status (post_upload (Some p) folderId fileId now w).2 ≠ 400%N →
  part_originalname p ≠ "".
Proof.
  intros Hst Hname. by rewrite post_upload_no_name in Hst.
Qed.


(** ** GET /api/files/:id/download *)

(** C4, as the route has it: an unknown id is answered 404 with the route's
    own error; for a known id the route hands the blob to [res.download]
    without looking at the directory, so a missing blob is answered by
    Express, again with status 404, and a present one is sent as an
    attachment under [original_name]. The stores are never changed. *)
Theorem get_download_outcomes id w :
  (get_file id w = None →
   get_download id w = (w, json 404 (BError "File not found"))) ∧
  (∀ f, get_file id w = Some f → File.name f ∉ uploads w →
        get_download id w = (w, json 404 BDefaultError)) ∧
  (∀ f, get_file id w = Some f → File.name f ∈ uploads w →
        get_download id w =
          (w, json 200 (BAttachment (File.name f) (File.original_name f)))).
Proof.
  unfold get_download, res_download.
  split_and!.
  - by intros ->.
  - intros f -> Hgone. by rewrite bool_decide_eq_false_2.
  - intros f -> Hthere. by rewrite bool_decide_eq_true_2.
Qed.

(** ** DELETE /api/files/:id *)

Lemma get_file_Some id w f :
  get_file id w = Some f → f ∈ files w ∧ File.id f = id.
Proof.
  unfold get_file. intros Hhead%head_Some_elem_of.
  apply list_elem_of_filter in Hhead. naive_solver.
Qed.

Lemma get_file_None id w : get_file id w = None ↔ id ∉ File.id <$> files w.
Proof.
  unfold get_file. rewrite head_None. split.
  - intros Hnil [f [-> Hf]]%list_elem_of_fmap.
    by apply (filter_nil_not_elem_of _ _ f Hnil).
  - intros Hid. apply elem_of_nil_inv. intros f [Heq Hf]%list_elem_of_filter.
    apply Hid. rewrite <- Heq. by apply list_elem_of_fmap_2.
Qed.

Lemma get_file_after_delete id w w' :
  files w' = filter (λ f, File.id f ≠ id) (files w) → get_file id w' = None.
Proof.
  intros Hfiles. apply get_file_None. rewrite Hfiles.
  intros [f [-> [Hne _]%list_elem_of_filter]]%list_elem_of_fmap. done.
Qed.

Lemma delete_files_run id f w :
  get_file id w = Some f →
  delete_files id w =
    if bool_decide (File.name f ∈ uploads w)
    then if bool_decide (File.name f ∈ stuck w)
         then (w, json 500 (BError "Failed to delete file"))
         else (log (DbDeleteFile id)
                 (with_files (filter (λ g, File.id g ≠ id) (files w))
                    (log (FsUnlink (File.name f))
                       (with_uploads (uploads w ∖ {[File.name f]}) w))),
               json 200 BSuccess)
    else (log (DbDeleteFile id)
            (with_files (filter (λ g, File.id g ≠ id) (files w)) w),
          json 200 BSuccess).
Proof.
  intros Hget. unfold delete_files, delete_file_row. rewrite Hget.
  unfold try_catch. rewrite bind_run, unlink_if_exists_run.
  repeat case_bool_decide; done.
Qed.

(** A successful DeleteFile leaves the other rows and no blob under the
    name of the deleted one. *)
Lemma delete_files_blob_free id f w :
  get_file id w = Some f →
  status (delete_files id w).2 = 200%N →
  files (delete_files id w).1 = filter (λ g, File.id g ≠ id) (files w) ∧
  folders (delete_files id w).1 = folders w ∧
  File.name f ∉ uploads (delete_files id w).1.
Proof.
  intros Hget. rewrite (delete_files_run id f w Hget).
  repeat case_bool_decide; simpl; try done.
  intros _. split_and!; try done. set_solver.
Qed.

(** C5: for an existing file row, DeleteFile removes the blob first and the
    row second; a blob that is already absent is no error; when the removal
    of the blob throws, the route answers 500 "Failed to delete file" and
    leaves every store as it was, the row included; and after a successful
    DeleteFile a second one on the same id answers 404, changes nothing and
    leaves the blob absent. *)
Theorem delete_files_blob_then_row id f w :
  get_file id w = Some f →
  let r := delete_files id w in
  ((File.name f ∉ uploads w) →
   r.2 = json 200 BSuccess ∧ uploads r.1 = uploads w ∧
   journal r.1 = journal w ++ [DbDeleteFile id]) ∧
  (File.name f ∈ uploads w → File.name f ∉ stuck w →
   r.2 = json 200 BSuccess ∧ uploads r.1 = uploads w ∖ {[File.name f]} ∧
   journal r.1 = journal w ++ [FsUnlink (File.name f); DbDeleteFile id]) ∧
  (File.name f ∈ uploads w → File.name f ∈ stuck w →
   r = (w, json 500 (BError "Failed to delete file"))) ∧
  (status r.2 = 200%N →
   files r.1 = filter (λ g, File.id g ≠ id) (files w) ∧
   folders r.1 = folders w ∧
   (File.name f ∉ uploads r.1) ∧
   delete_files id r.1 = (r.1, json 404 (BError "File not found"))).
Proof.
  intros Hget. rewrite (delete_files_run id f w Hget).
  repeat case_bool_decide; simpl; (split; [|split; [|split]]); try done.
  - intros _ _. by rewrite <- app_assoc.
  - intros _. split_and!; try done; [set_solver|].
    unfold delete_files. by erewrite get_file_after_delete.
  - intros _. split_and!; try done.
    unfold delete_files. by erewrite get_file_after_delete.
Qed.

(** ** POST /api/rename *)

Lemma update_original_name_run s i w :
  update_original_name (JsStr s) (JsStr i) w =
    (log (DbUpdateFile (Some i))
       (with_files ((λ f, if decide (Some (File.id f) = Some i)
                          then File.set_original_name s f else f)
                    <$> files w) w), Ok tt).
Proof. reflexivity. Qed.

Lemma update_folder_name_run s i w :
  update_folder_name (JsStr s) (JsStr i) w =
    (log (DbUpdateFolder (Some i))
       (with_folders ((λ f, if decide (Some (Folder.id f) = Some i)
                            then set_folder_name s f else f)
                      <$> folders w) w), Ok tt).
Proof. reflexivity. Qed.

(** Whatever is bound, the UPDATE on [files] leaves everything but
    [original_name] as it is. *)
Lemma update_original_name_cases newName id w :
  let r := update_original_name newName id w in
  folders r.1 = folders w ∧ uploads r.1 = uploads w ∧ stuck r.1 = stuck w ∧
  (files r.1 = files w ∨
   ∃ s i, files r.1 = (λ f, if decide (Some (File.id f) = i)
                            then File.set_original_name s f else f)
                      <$> files w).
Proof.
  unfold update_original_name. rewrite bind_run.
  pose proof (bind_params_pure [newName; id] 2 w) as Hpure.
  destruct (bind_params [newName; id] 2 w) as [w1 [xs|e]]; simpl in Hpure;
    subst w1; [|by split_and!; [..|left]].
  destruct xs as [|v [|i [|??]]]; try (by split_and!; [..|left]).
  rewrite bind_run. unfold gets.
  destruct v as [s|]; [by split_and!; [..|right; exists s, i]|].
  case_bool_decide; by split_and!; [..|left].
Qed.

(** Whatever is bound, the UPDATE on [folders] leaves everything but [name]
    as it is. *)
Lemma update_folder_name_cases newName id w :
  let r := update_folder_name newName id w in
  files r.1 = files w ∧ uploads r.1 = uploads w ∧ stuck r.1 = stuck w ∧
  (folders r.1 = folders w ∨
   ∃ s i, folders r.1 = (λ f, if decide (Some (Folder.id f) = i)
                              then set_folder_name s f else f)
                        <$> folders w).
Proof.
  unfold update_folder_name. rewrite bind_run.
  pose proof (bind_params_pure [newName; id] 2 w) as Hpure.
  destruct (bind_params [newName; id] 2 w) as [w1 [xs|e]]; simpl in Hpure;
    subst w1; [|by split_and!; [..|left]].
  destruct xs as [|v [|i [|??]]]; try (by split_and!; [..|left]).
  rewrite bind_run. unfold gets.
  destruct v as [s|]; [by split_and!; [..|right; exists s, i]|].
  case_bool_decide; by split_and!; [..|left].
Qed.

Lemma truthy_str s : truthy (JsStr s) = true ↔ s ≠ "".
Proof. simpl. by rewrite bool_decide_eq_true. Qed.

(** The route once the three fields have passed the test of its first
    line. *)
Lemma post_rename_run id type newName w :
  truthy id = true → truthy type = true → truthy newName = true →
  post_rename id type newName w =
    try_catch
      ((if is_str "file" type
        then update_original_name newName id
        else update_folder_name newName id);;
       mret (json 200 BSuccess))
      (json 500 (BError "Failed to rename")) w.
Proof. intros Hi Ht Hn. unfold post_rename. by rewrite Hi, Ht, Hn. Qed.

(** C6, as the route has it: an empty or absent new name, id or kind is
    answered 400 and nothing is changed; otherwise, for a string id and a
    string new name, an id that resolves to no row of the table that [type]
    selects is not an error: the route reports success and both tables are
    as before. *)
Theorem post_rename_validation id type newName w :
  (truthy id = false ∨ truthy type = false ∨ truthy newName = false →
   post_rename id type newName w =
     (w, json 400 (BError "Missing parameters"))) ∧
  (∀ i s, id = JsStr i → newName = JsStr s →
     i ≠ "" → s ≠ "" → truthy type = true →
     (if is_str "file" type
      then i ∉ File.id <$> files w
      else i ∉ Folder.id <$> folders w) →
     let r := post_rename id type newName w in
     r.2 = json 200 BSuccess ∧
     files r.1 = files w ∧ folders r.1 = folders w ∧ uploads r.1 = uploads w).
Proof.
  split.
  - intros Hfalsy. unfold post_rename.
    destruct Hfalsy as [-> | [-> | ->]]; by rewrite ?orb_true_r.
  - intros i s -> -> Hi Hs Htype Hmiss.
    rewrite post_rename_run by (done || by apply truthy_str).
    unfold try_catch. rewrite bind_run.
    destruct (is_str "file" type).
    + rewrite update_original_name_run. simpl. split_and!; try done.
      apply fmap_fixed. intros f Hf. case_decide as Heq; [|done].
      exfalso. apply Hmiss. apply list_elem_of_fmap. exists f.
      split; [|done]. congruence.
    + rewrite update_folder_name_run. simpl. split_and!; try done.
      apply fmap_fixed. intros f Hf. case_decide as Heq; [|done].
      exfalso. apply Hmiss. apply list_elem_of_fmap. exists f.
      split; [|done]. congruence.
Qed.

(** C10: a rename whose kind is any value other than the exact string
    "file" (and not empty) is run against the folders table: every folder
    row with that id carries the new name afterwards, with its id, parent
    and date as before, every other folder row and the files table are
    untouched, and the answer is success whatever the kind says. *)
Theorem post_rename_kind_not_file i kind s w :
  i ≠ "" → truthy kind = true → is_str "file" kind = false → s ≠ "" →
  let r := post_rename (JsStr i) kind (JsStr s) w in
  r.2 = json 200 BSuccess ∧
  files r.1 = files w ∧
  folders r.1 =
    (λ f, if decide (Folder.id f = i)
          then Folder.mk (Folder.id f) s (Folder.parent_id f)
                 (Folder.created_at f)
          else f) <$> folders w ∧
  (∀ d, d ∈ folders w → Folder.id d = i →
        Folder.mk i s (Folder.parent_id d) (Folder.created_at d)
          ∈ folders r.1) ∧
  (∀ d, d ∈ folders w → Folder.id d ≠ i → d ∈ folders r.1) ∧
  journal r.1 = journal w ++ [DbUpdateFolder (Some i)].
Proof.
  intros Hi Hkind Hfile Hs. simpl.
  rewrite post_rename_run by (done || by apply truthy_str).
  unfold try_catch. rewrite bind_run, Hfile, update_folder_name_run. simpl.
  assert ((λ f, if decide (Some (Folder.id f) = Some i)
                then set_folder_name s f else f) <$> folders w =
          (λ f, if decide (Folder.id f = i)
                then Folder.mk (Folder.id f) s (Folder.parent_id f)
                       (Folder.created_at f)
                else f) <$> folders w) as ->.
  { apply list_fmap_ext. intros _ f _.
    repeat case_decide; (reflexivity || congruence). }
  split_and!; try done.
  - intros d Hd Hid. apply list_elem_of_fmap. exists d.
    split; [|done]. rewrite decide_True by done. by rewrite Hid.
  - intros d Hd Hid. apply list_elem_of_fmap. exists d.
    split; [|done]. by rewrite decide_False.
Qed.

(** ** GET /api/contents *)

(** C8: for a folder id, or "root" for the root, ListContents answers with
    exactly the folder rows whose [parent_id] and the file rows whose
    [folder_id] is that value (NULL for the root), the folders by ascending
    name and the files by descending upload date, and changes nothing. *)
Theorem get_contents_lists_children s w :
  let target := if decide (s = "root") then None else Some s in
  ∃ fo fi,
    get_contents (JsStr s) w = (w, json 200 (BContents fo fi)) ∧
    fo ≡ₚ filter (λ f, Folder.parent_id f = target) (folders w) ∧
    (∀ f, f ∈ fo ↔ f ∈ folders w ∧ Folder.parent_id f = target) ∧
    StronglySorted name_asc fo ∧
    fi ≡ₚ filter (λ f, File.folder_id f = target) (files w) ∧
    (∀ f, f ∈ fi ↔ f ∈ files w ∧ File.folder_id f = target) ∧
    StronglySorted upload_date_desc fi.
Proof.
  intros target.
  exists (select_folders_by_parent target w), (select_files_by_folder target w).
  split.
  { unfold get_contents, from_wire, target. simpl.
    destruct (decide (s = "root")) as [->|Hs].
    - reflexivity.
    - rewrite bool_decide_eq_false_2 by done. reflexivity. }
  unfold select_folders_by_parent, select_files_by_folder.
  split_and!.
  - apply merge_sort_Permutation.
  - intros f. rewrite merge_sort_Permutation, list_elem_of_filter. tauto.
  - apply StronglySorted_merge_sort; apply _.
  - apply merge_sort_Permutation.
  - intros f. rewrite merge_sort_Permutation, list_elem_of_filter. tauto.
  - apply StronglySorted_merge_sort; apply _.
Qed.

(** ** What a request does to the tables *)

(** The INSERT on [folders] either throws and changes nothing, or appends
    one row under a new id; with a scalar [parent_id] the row's parent is
    that scalar. *)
Lemma insert_folder_cases id name parent_id now w :
  let r := insert_folder id name parent_id now w in
  (r.1 = w ∧ ∃ e, r.2 = Thrown e) ∨
  (∃ n p, (id ∉ Folder.id <$> folders w) ∧
          r = (log (DbInsertFolder id)
                 (with_folders (folders w ++ [Folder.mk id n p now]) w),
               Ok tt) ∧
          (scalar parent_id = true →
           p = match parent_id with JsStr s => Some s | _ => None end)).
Proof.
  unfold insert_folder. rewrite bind_run.
  pose proof (bind_params_pure [name; parent_id] 2 w) as Hpure.
  pose proof (bind_params_two_scalar name parent_id) as Hscalar.
  destruct (bind_params [name; parent_id] 2 w) as [w1 [xs|e]] eqn:Hbind;
    simpl in Hpure; subst w1; [|left; by eauto].
  destruct xs as [|n' [|p [|??]]]; try (left; by eauto).
  rewrite bind_run. destruct n' as [n|]; simpl; [|left; by eauto].
  rewrite bind_run. unfold gets. case_bool_decide as Hknown;
    [left; by eauto|].
  right. exists n, p. split_and!; [done..|].
  intros Hp. by destruct (Hscalar _ w Hp Hbind) as (? & [= _ ->]).
Qed.

Lemma scalar_from_wire v : scalar v = true → scalar (from_wire v) = true.
Proof. unfold from_wire. by destruct (is_str "root" v). Qed.

Lemma from_wire_not_root v :
  match from_wire v with JsStr s => Some s | _ => None end ≠ Some "root".
Proof.
  unfold from_wire. destruct v as [| | | |s| |]; simpl; try done.
  case_bool_decide; congruence.
Qed.

(** CreateFolder either changes nothing or appends one folder row under a
    new id; with a scalar [parentId] the row's parent is not "root". *)
Lemma post_folders_cases name parentId id now w :
  let r := post_folders name parentId id now w in
  r.1 = w ∨
  (∃ n p, (id ∉ Folder.id <$> folders w) ∧
          r.1 = log (DbInsertFolder id)
                  (with_folders (folders w ++ [Folder.mk id n p now]) w) ∧
          r.2 = json 200 (BCreated id name) ∧
          (scalar parentId = true → p ≠ Some "root")).
Proof.
  unfold post_folders. destruct (truthy name); simpl; [|by left].
  unfold try_catch. rewrite bind_run.
  destruct (insert_folder_cases id name (from_wire parentId) now w)
    as [[Hw [e He]]|(n & p & Hfresh & Hr & Hp)]; simpl in *.
  - destruct (insert_folder _ _ _ _ w) as [w1 o]; simpl in *. subst.
    by left.
  - rewrite Hr. right. exists n, p. split_and!; [done..|].
    intros Hs. rewrite Hp by by apply scalar_from_wire.
    apply from_wire_not_root.
Qed.

(** UploadFile changes nothing, or writes the blob and fails at the insert,
    or writes the blob and appends one file row under a new id. *)
Lemma post_upload_cases part folderId fileId now w :
  let r := post_upload part folderId fileId now w in
  (r.1 = w ∧ status r.2 = 400%N) ∨
  ∃ p, part = Some p ∧ part_originalname p ≠ "" ∧
       let key := storage_filename p in
       let w1 := log (FsWrite key) (with_uploads (uploads w ∪ {[key]}) w) in
       (r = (w1, json 500 (BError "Failed to save file metadata")) ∨
        ∃ q, (fileId ∉ File.id <$> files w) ∧
             sole_param (from_wire folderId) = Some q ∧
             r = (log (DbInsertFile fileId)
                    (with_files
                       (files w ++
                          [File.mk fileId key (part_originalname p)
                             (part_mimetype p) (part_size p) q now]) w1),
                  json 200 (BCreated fileId (JsStr (part_originalname p))))).
Proof.
  destruct part as [p|]; [|by left].
  destruct (decide (part_originalname p = "")) as [Hname|Hname].
  { left. by rewrite post_upload_no_name. }
  right. exists p. split_and!; [done..|].
  pose proof (post_upload_run p folderId fileId now w Hname) as Hrun.
  simpl in *. rewrite Hrun. clear Hrun.
  destruct (sole_param (from_wire folderId)) as [q|]; simpl; [|by left].
  case_bool_decide; simpl; [by left|].
  right. by exists q.
Qed.

Lemma get_contents_pure v w : (get_contents v w).1 = w.
Proof.
  unfold get_contents, try_catch. rewrite bind_run.
  pose proof (bind_params_pure [from_wire v] 1 w) as Hpure.
  destruct (bind_params [from_wire v] 1 w) as [w1 [xs|e]];
    simpl in Hpure; subst w1; [|done].
  by destruct xs as [|p [|??]].
Qed.

(** Rename changes nothing but [original_name] of file rows and [name] of
    folder rows. *)
Lemma post_rename_cases id type newName w :
  let r := post_rename id type newName w in
  uploads r.1 = uploads w ∧ stuck r.1 = stuck w ∧
  (files r.1 = files w ∨
   ∃ s i, files r.1 = (λ f, if decide (Some (File.id f) = i)
                            then File.set_original_name s f else f)
                      <$> files w) ∧
  (folders r.1 = folders w ∨
   ∃ s i, folders r.1 = (λ f, if decide (Some (Folder.id f) = i)
                              then set_folder_name s f else f)
                        <$> folders w).
Proof.
  unfold post_rename. destruct (_ || _); [by split_and!; [..|left|left]|].
  unfold try_catch. rewrite bind_run.
  destruct (is_str "file" type).
  - pose proof (update_original_name_cases newName id w) as Hu.
    destruct (update_original_name newName id w) as [w1 [[]|e]];
      simpl in *; destruct Hu as (-> & -> & -> & Hfiles);
      by split_and!; [..|left].
  - pose proof (update_folder_name_cases newName id w) as Hu.
    destruct (update_folder_name newName id w) as [w1 [[]|e]];
      simpl in *; destruct Hu as (-> & -> & -> & Hfolders);
      by split_and!; [| |left|].
Qed.

Lemma serve_folders r w :
  table_step Folder.id Folder.parent_id
    (λ x, scalar_folder_field r = true → Folder.parent_id x ≠ Some "root")
    (folders w) (folders (serve r w).1).
Proof.
  destruct r; simpl.
  - rewrite get_contents_pure. constructor.
  - destruct (post_folders_cases name parentId id now w)
      as [->|(n & p & Hfresh & -> & _ & Hp)]; by constructor.
  - rewrite delete_folders_run.
    pose proof (for_each_unlink_frame (select_names_in_folder id w) w) as Hf.
    destruct (for_each _ _ w) as [w1 [[]|e]]; simpl in *;
      destruct Hf as (-> & _); constructor.
  - constructor.
  - destruct (post_upload_cases part folderId fileId now w)
      as [[-> _]|(p & _ & _ & [->|(q & _ & _ & ->)])]; constructor.
  - unfold get_download. destruct (get_file id w); constructor.
  - destruct (get_file id w) as [f|] eqn:Hget.
    + rewrite (delete_files_run id f w Hget).
      repeat case_bool_decide; constructor.
    + unfold delete_files. rewrite Hget. constructor.
  - unfold get_view. destruct (get_file id w); constructor.
  - destruct (post_rename_cases id type newName w)
      as (_ & _ & _ & [->|(s & i & ->)]); constructor.
    intros f. by case_decide.
  - constructor.
Qed.

Lemma serve_files r w :
  table_step File.id File.folder_id
    (λ x, scalar_folder_field r = true → File.folder_id x ≠ Some "root")
    (files w) (files (serve r w).1).
Proof.
  destruct r; simpl.
  - rewrite get_contents_pure. constructor.
  - destruct (post_folders_cases name parentId id now w)
      as [->|(n & p & Hfresh & -> & _ & Hp)]; constructor.
  - rewrite delete_folders_run.
    pose proof (for_each_unlink_frame (select_names_in_folder id w) w) as Hf.
    destruct (for_each _ _ w) as [w1 [[]|e]]; simpl in *;
      destruct Hf as (_ & -> & _); constructor.
  - constructor.
  - destruct (post_upload_cases part folderId fileId now w)
      as [[-> _]|(p & _ & _ & [->|(q & Hfresh & Hq & ->)])];
      try constructor; [done|].
    intros Hs [= ->]. by apply (from_wire_scalar_not_root folderId).
  - unfold get_download. destruct (get_file id w); constructor.
  - destruct (get_file id w) as [f|] eqn:Hget.
    + rewrite (delete_files_run id f w Hget).
      repeat case_bool_decide; constructor.
    + unfold delete_files. rewrite Hget. constructor.
  - unfold get_view. destruct (get_file id w); constructor.
  - destruct (post_rename_cases id type newName w)
      as (_ & _ & [->|(s & i & ->)] & _); constructor.
    intros f. by case_decide.
  - constructor.
Qed.

(** ** Invariants of the tables *)

Lemma NoDup_fmap_filter {A B} (f : A → B) (P : A → Prop)
    `{!∀ x, Decision (P x)} (l : list A) :
  NoDup (f <$> l) → NoDup (f <$> filter P l).
Proof.
  induction l as [|x l IH]; [done|].
  rewrite fmap_cons, NoDup_cons. intros [Hx Hl].
  rewrite filter_cons. case_decide; [|by apply IH].
  rewrite fmap_cons, NoDup_cons. split; [|by apply IH].
  intros (y & Hy & [_ Hin]%list_elem_of_filter)%list_elem_of_fmap.
  apply Hx. rewrite Hy. by apply list_elem_of_fmap_2.
Qed.

Lemma table_step_keys {A} (key : A → string) parent admitted l l' :
  table_step key parent admitted l l' →
  NoDup (key <$> l) → NoDup (key <$> l').
Proof.
  intros [l0|P ? l0|l0 x Hfresh _|g l0 Hg] Hnd.
  - done.
  - by apply NoDup_fmap_filter.
  - rewrite fmap_app. apply NoDup_app. split_and!; [done| |apply NoDup_singleton].
    intros k Hk ->%list_elem_of_singleton. done.
  - rewrite <- list_fmap_compose.
    erewrite list_fmap_ext; [exact Hnd|]. intros _ x _. apply Hg.
Qed.

Lemma table_step_parents {A} (key : A → string) parent admitted
    (l l' : list A) :
  table_step key parent admitted l l' →
  (∀ x, admitted x → parent x ≠ Some "root") →
  (∀ x, x ∈ l → parent x ≠ Some "root") →
  (∀ x, x ∈ l' → parent x ≠ Some "root").
Proof.
  intros [l0|P ? l0|l0 x _ Hx|g l0 Hg] Hadm Hl y.
  - apply Hl.
  - intros [_ Hy]%list_elem_of_filter. by apply Hl.
  - intros [Hy| ->%list_elem_of_singleton]%elem_of_app;
      [by apply Hl|by apply Hadm].
  - intros (x & -> & Hx)%list_elem_of_fmap.
    destruct (Hg x) as [_ ->]. by apply Hl.
Qed.

Lemma reachable_keys_unique w : reachable w → keys_unique w.
Proof.
  induction 1 as [dir locked|w r _ [IHfo IHfi]|w dir locked _ IH].
  - split; apply NoDup_nil_2.
  - split.
    + eapply table_step_keys; [apply serve_folders|done].
    + eapply table_step_keys; [apply serve_files|done].
  - done.
Qed.

Lemma serve_root_free r w :
  scalar_folder_field r = true → root_free w → root_free (serve r w).1.
Proof.
  intros Hr [Hfo Hfi]. split.
  - eapply table_step_parents; [apply serve_folders|naive_solver|done].
  - eapply table_step_parents; [apply serve_files|naive_solver|done].
Qed.

Lemma reachable_scalar_root_free w : reachable_scalar w → root_free w.
Proof.
  induction 1 as [dir locked|w r _ IH Hr|w dir locked _ IH].
  - split; intros f Hf; simpl in Hf; by apply not_elem_of_nil in Hf.
  - by apply serve_root_free.
  - done.
Qed.

(** While [parentId] and [folderId] come as the client sends them (absent,
    null or a string), the sentinel "root" never reaches a table: such a
    request leaves a state without a stored "root" without one, so no state
    reached through such requests has one; a folder created under "root"
    and a file uploaded into "root" are stored with NULL. *)
Theorem scalar_fields_keep_root_free :
  (∀ r w, scalar_folder_field r = true → root_free w →
          root_free (serve r w).1) ∧
  (∀ w, reachable_scalar w → root_free w) ∧
  (∀ n id now w,
     status (post_folders (JsStr n) (JsStr "root") id now w).2 = 200%N →
     folders (post_folders (JsStr n) (JsStr "root") id now w).1 =
       folders w ++ [Folder.mk id n None now]) ∧
  (∀ p fileId now w,
     status (post_upload (Some p) (JsStr "root") fileId now w).2 = 200%N →
     files (post_upload (Some p) (JsStr "root") fileId now w).1 =
       files w ++ [File.mk fileId (storage_filename p) (part_originalname p)
                     (part_mimetype p) (part_size p) None now]).
Proof.
  split_and!.
  - apply serve_root_free.
  - apply reachable_scalar_root_free.
  - intros n id now w. unfold post_folders.
    destruct (truthy (JsStr n)); simpl; [|done].
    unfold try_catch. rewrite bind_run. unfold insert_folder.
    rewrite bind_run. simpl. rewrite bind_run. simpl. rewrite bind_run.
    unfold gets. by case_bool_decide.
  - intros p fileId now w Hok.
    pose proof (post_upload_named p (JsStr "root") fileId now w) as Hname.
    rewrite Hok in Hname. specialize (Hname ltac:(done)). revert Hok.
    pose proof (post_upload_run p (JsStr "root") fileId now w Hname) as Hrun.
    simpl in Hrun. rewrite Hrun. simpl. by case_bool_decide.
Qed.

(** ** GET /api/stats *)

Lemma or_zero_Some n : or_zero (Some n) = n.
Proof. simpl. destruct (N.eqb_spec n 0); congruence. Qed.

Lemma get_stats_run w :
  get_stats w = (w, json 200 (BStats (count_of w) (total_size_of w))).
Proof.
  unfold get_stats, try_catch, count_of, total_size_of.
  rewrite bind_run. unfold gets, mret, M_ret, ret. cbv beta iota.
  rewrite or_zero_Some. unfold select_stats. cbn [fst snd].
  destruct (files w); [done|]. by rewrite or_zero_Some.
Qed.

Lemma post_upload_stats p folderId fileId now w :
  status (post_upload (Some p) folderId fileId now w).2 = 200%N →
  let w' := (post_upload (Some p) folderId fileId now w).1 in
  count_of w' = (count_of w + 1)%N ∧
  total_size_of w' = (total_size_of w + part_size p)%N.
Proof.
  intros Hok.
  pose proof (post_upload_named p folderId fileId now w) as Hname.
  rewrite Hok in Hname. specialize (Hname ltac:(done)). revert Hok.
  pose proof (post_upload_run p folderId fileId now w Hname) as Hrun.
  simpl in Hrun. rewrite Hrun. clear Hrun.
  destruct (_ || _); simpl; [done|]. intros _.
  unfold count_of, total_size_of. simpl.
  rewrite length_app, sum_sizes_app. simpl. lia.
Qed.

Lemma uploads_stats us w :
  Forall (λ r, status r = 200%N) (responses (upload_request <$> us) w) →
  let w' := run (upload_request <$> us) w in
  count_of w' = (count_of w + N.of_nat (length us))%N ∧
  total_size_of w' = (total_size_of w + uploaded_bytes us)%N.
Proof.
  revert w. induction us as [|[[[p fo] fi] n] us IH]; intros w; simpl.
  { intros _. lia. }
  intros [Hok Hrest]%Forall_cons.
  destruct (post_upload_stats p fo fi n w Hok) as [Hc Ht].
  destruct (IH _ Hrest) as [IHc IHt].
  split; (etrans; [eassumption|]); [rewrite Hc|rewrite Ht]; lia.
Qed.

Lemma delete_row_stats (l : list File.t) f :
  NoDup (File.id <$> l) → f ∈ l →
  length l = S (length (filter (λ g, File.id g ≠ File.id f) l)) ∧
  sum_sizes l =
    (File.size f + sum_sizes (filter (λ g, File.id g ≠ File.id f) l))%N.
Proof.
  induction l as [|x l IH]; [by intros _ ?%not_elem_of_nil|].
  rewrite fmap_cons, NoDup_cons. intros [Hx Hl] Hf.
  rewrite filter_cons. apply elem_of_cons in Hf as [<-|Hf].
  - rewrite decide_False by naive_solver.
    rewrite filter_all; [done|].
    intros g Hg Heq. apply Hx. rewrite <- Heq. by apply list_elem_of_fmap_2.
  - rewrite decide_True.
    + destruct (IH Hl Hf) as [IHlen IHsum]. simpl. rewrite IHsum. lia.
    + intros Heq. apply Hx. rewrite Heq. by apply list_elem_of_fmap_2.
Qed.

(** C7: ComputeStats answers with the number of file rows and the sum of
    their sizes and changes nothing; with no rows both are 0; after N
    successful uploads the count has grown by N and the total by the sum of
    the uploaded sizes (so from empty tables they are N and that sum); and a
    successful DeleteFile takes one off the count and the size of the
    deleted file off the total. *)
Theorem get_stats_counts_rows_and_sums_sizes :
  (∀ w, get_stats w =
          (w, json 200 (BStats (N.of_nat (length (files w)))
                               (sum_sizes (files w))))) ∧
  (∀ w, files w = [] → (get_stats w).2 = json 200 (BStats 0 0)) ∧
  (∀ us w,
     Forall (λ r, status r = 200%N) (responses (upload_request <$> us) w) →
     (get_stats (run (upload_request <$> us) w)).2 =
       json 200 (BStats (count_of w + N.of_nat (length us))
                        (total_size_of w + uploaded_bytes us))) ∧
  (∀ us w,
     files w = [] →
     Forall (λ r, status r = 200%N) (responses (upload_request <$> us) w) →
     (get_stats (run (upload_request <$> us) w)).2 =
       json 200 (BStats (N.of_nat (length us)) (uploaded_bytes us))) ∧
  (∀ id w,
     reachable w → status (delete_files id w).2 = 200%N →
     ∃ f, get_file id w = Some f ∧
          (1 ≤ count_of w)%N ∧ (File.size f ≤ total_size_of w)%N ∧
          (get_stats (delete_files id w).1).2 =
            json 200 (BStats (count_of w - 1)
                             (total_size_of w - File.size f))).
Proof.
  split_and!.
  - apply get_stats_run.
  - intros w Hnil. rewrite get_stats_run. unfold count_of, total_size_of.
    by rewrite Hnil.
  - intros us w Hok. rewrite get_stats_run. simpl.
    by destruct (uploads_stats us w Hok) as [-> ->].
  - intros us w Hnil Hok. rewrite get_stats_run. simpl.
    destruct (uploads_stats us w Hok) as [-> ->].
    unfold count_of, total_size_of. rewrite Hnil. simpl.
    do 2 f_equal; lia.
  - intros id w [_ Hkeys]%reachable_keys_unique Hok.
    destruct (get_file id w) as [f|] eqn:Hget;
      [|unfold delete_files in Hok; by rewrite Hget in Hok].
    exists f. split; [done|].
    destruct (get_file_Some id w f Hget) as [Hf Hid].
    destruct (delete_row_stats (files w) f Hkeys Hf) as [Hlen Hsum].
    rewrite Hid in Hlen, Hsum.
    rewrite get_stats_run. simpl.
    destruct (delete_files_blob_free id f w Hget Hok) as [Hfiles _].
    unfold count_of, total_size_of. rewrite Hfiles, Hlen, Hsum.
    split_and!; [lia..|]. do 2 f_equal; lia.
Qed.

(** ** The scenario, evaluated *)

(** Closes a decidable goal on concrete data by evaluating its decision
    procedure. *)
Ltac by_decide := apply (bool_decide_eq_true_1 _); vm_compute; reflexivity.

Lemma reachable_run rs w : reachable w → reachable (run rs w).
Proof.
  revert w. induction rs as [|r rs IH]; intros w Hw; simpl; [done|].
  apply IH. by apply reachable_serve.
Qed.

Lemma scenario_reachable : reachable scenario.
Proof. apply reachable_run, reachable_fresh. Qed.



(** C2 fails on the code.  In the scenario DeleteFolder(F1) reports success,
    yet ListFiles still returns A.txt, ComputeStats still counts it, its blob
    is still in the uploads directory and the row of F2 is still there. *)
Lemma delete_folders_keeps_descendants :
  let r := delete_folders "f1" scenario in
  r.2 = json 200 BSuccess ∧
  (get_files r.1).2 = json 200 (BFiles [a_txt_row]) ∧
  (get_stats r.1).2 = json 200 (BStats 1 10) ∧
  File.name a_txt_row ∈ uploads r.1 ∧
  "f2" ∈ Folder.id <$> folders r.1.
Proof. split_and!; [vm_compute; reflexivity..|by_decide|by_decide]. Qed.

Lemma delete_folders_removes_direct_contents_witness :
  status (delete_folders "f2" scenario).2 = 200%N ∧
  files (delete_folders "f2" scenario).1 = [] ∧
  (File.name a_txt_row ∉ uploads (delete_folders "f2" scenario).1).
Proof.
  assert (status (delete_folders "f2" scenario).2 = 200%N) as Hok.
  { vm_compute. reflexivity. }
  destruct (delete_folders_removes_direct_contents "f2" scenario Hok)
    as (_ & Hfiles & _ & Hgone & _).
  split_and!; [exact Hok|rewrite Hfiles; vm_compute; reflexivity|].
  apply (Hgone a_txt_row); [by_decide|reflexivity].
Defined.

(** C3 fails on the code.  No folder has the id "nope", and DeleteFolder on
    it reports success instead of 404. *)
Lemma delete_folders_unknown_id_succeeds :
  ("nope" ∉ Folder.id <$> folders scenario) ∧
  (delete_folders "nope" scenario).2 = json 200 BSuccess.
Proof. split; [by_decide|vm_compute; reflexivity]. Qed.

Lemma delete_folders_unknown_id_witness :
  ("nope" ∉ Folder.id <$> folders scenario) ∧
  status (delete_folders "nope" scenario).2 ≠ 404%N ∧
  folders (delete_folders "nope" scenario).1 = folders scenario.
Proof.
  assert ("nope" ∉ Folder.id <$> folders scenario) as Hid by by_decide.
  destruct (delete_folders_unknown_id "nope" scenario Hid)
    as (Hs & _ & Hfo & _).
  split_and!; [exact Hid|exact Hs|exact Hfo].
Defined.

(** C4 fails on the code.  The row of A.txt exists and its blob is gone:
    DownloadFile answers with status 404, the status it also gives for an id
    that has no row; no 500 and no error of the route's own is produced. *)
Lemma get_download_missing_blob_is_404 :
  get_file "a" scenario_blob_gone = Some a_txt_row ∧
  (File.name a_txt_row ∉ uploads scenario_blob_gone) ∧
  status (get_download "a" scenario_blob_gone).2 = 404%N ∧
  status (get_download "a" scenario_blob_gone).2 =
    status (get_download "zz" scenario_blob_gone).2.
Proof. split_and!; [vm_compute; reflexivity|by_decide|vm_compute; reflexivity..]. Qed.

Lemma get_download_outcomes_witness :
  get_download "a" scenario_blob_gone = (scenario_blob_gone, json 404 BDefaultError) ∧
  get_download "zz" scenario = (scenario, json 404 (BError "File not found")) ∧
  get_download "a" scenario =
    (scenario, json 200 (BAttachment (File.name a_txt_row) "A.txt")).
Proof.
  split_and!.
  - apply (proj1 (proj2 (get_download_outcomes "a" scenario_blob_gone))
             a_txt_row); [vm_compute; reflexivity|by_decide].
  - apply (proj1 (get_download_outcomes "zz" scenario)).
    vm_compute; reflexivity.
  - apply (proj2 (proj2 (get_download_outcomes "a" scenario)) a_txt_row);
      [vm_compute; reflexivity|by_decide].
Defined.

Lemma delete_files_blob_then_row_witness :
  get_file "a" scenario = Some a_txt_row ∧
  (delete_files "a" scenario).2 = json 200 BSuccess ∧
  journal (delete_files "a" scenario).1 =
    journal scenario ++ [FsUnlink (File.name a_txt_row); DbDeleteFile "a"] ∧
  delete_files "a" scenario_blob_stuck =
    (scenario_blob_stuck, json 500 (BError "Failed to delete file")) ∧
  delete_files "a" (delete_files "a" scenario).1 =
    ((delete_files "a" scenario).1, json 404 (BError "File not found")).
Proof.
  assert (get_file "a" scenario = Some a_txt_row) as Hget
    by (vm_compute; reflexivity).
  assert (get_file "a" scenario_blob_stuck = Some a_txt_row) as Hget'
    by (vm_compute; reflexivity).
  destruct (delete_files_blob_then_row "a" a_txt_row scenario Hget)
    as (_ & Hthere & _ & Hagain).
  destruct (delete_files_blob_then_row "a" a_txt_row scenario_blob_stuck Hget')
    as (_ & _ & Hstuck & _).
  destruct Hthere as (Hok & _ & Hjournal); [by_decide..|].
  split_and!; [exact Hget|exact Hok|exact Hjournal| |].
  - apply Hstuck; by_decide.
  - apply Hagain. rewrite Hok. reflexivity.
Defined.

(** C6 fails on the code.  No file has the id "nope", and renaming it is
    answered with success instead of 404. *)
Lemma post_rename_unknown_id_succeeds :
  get_file "nope" scenario = None ∧
  (post_rename (JsStr "nope") (JsStr "file") (JsStr "x") scenario).2 =
    json 200 BSuccess.
Proof. split; vm_compute; reflexivity. Qed.

Lemma post_rename_validation_witness :
  post_rename (JsStr "a") (JsStr "file") (JsStr "") scenario =
    (scenario, json 400 (BError "Missing parameters")) ∧
  post_rename (JsStr "") (JsStr "file") (JsStr "x") scenario =
    (scenario, json 400 (BError "Missing parameters")) ∧
  (post_rename (JsStr "nope") (JsStr "file") (JsStr "x") scenario).2 =
    json 200 BSuccess ∧
  files (post_rename (JsStr "nope") (JsStr "file") (JsStr "x") scenario).1 =
    files scenario.
Proof.
  split_and!.
  - apply (proj1 (post_rename_validation (JsStr "a") (JsStr "file") (JsStr "")
                    scenario)). right. right. reflexivity.
  - apply (proj1 (post_rename_validation (JsStr "") (JsStr "file") (JsStr "x")
                    scenario)). left. reflexivity.
  - apply (proj2 (post_rename_validation (JsStr "nope") (JsStr "file")
                    (JsStr "x") scenario) "nope" "x");
      [reflexivity|reflexivity|by_decide|by_decide|reflexivity|].
    simpl. by_decide.
  - apply (proj2 (post_rename_validation (JsStr "nope") (JsStr "file")
                    (JsStr "x") scenario) "nope" "x");
      [reflexivity|reflexivity|by_decide|by_decide|reflexivity|].
    simpl. by_decide.
Defined.

Lemma get_stats_counts_rows_and_sums_sizes_witness :
  (get_stats (fresh ∅ ∅)).2 = json 200 (BStats 0 0) ∧
  (get_stats
     (run (upload_request <$>
             [(b_txt, JsStr "root", "b", "2024-01-01 00:00:03");
              (c_txt, JsStr "f2", "c", "2024-01-01 00:00:04")]) scenario)).2 =
    json 200 (BStats (count_of scenario + 2) (total_size_of scenario + 12)) ∧
  ∃ f, get_file "a" scenario = Some f ∧
       (1 ≤ count_of scenario)%N ∧ (File.size f ≤ total_size_of scenario)%N ∧
       (get_stats (delete_files "a" scenario).1).2 =
         json 200 (BStats (count_of scenario - 1)
                          (total_size_of scenario - File.size f)).
Proof.
  destruct get_stats_counts_rows_and_sums_sizes
    as (_ & Hnil & Hup & _ & Hdel).
  split_and!.
  - apply Hnil. reflexivity.
  - apply (Hup [(b_txt, JsStr "root", "b", "2024-01-01 00:00:03");
                (c_txt, JsStr "f2", "c", "2024-01-01 00:00:04")] scenario).
    vm_compute. repeat constructor.
  - apply Hdel; [exact scenario_reachable|vm_compute; reflexivity].
Defined.

Lemma scenario_reachable_scalar : reachable_scalar scenario.
Proof.
  unfold scenario. cbn [run].
  repeat (apply reachable_scalar_serve; [|reflexivity]).
  apply reachable_scalar_fresh.
Qed.

Lemma scalar_fields_keep_root_free_witness :
  reachable_scalar scenario ∧ root_free scenario.
Proof.
  split; [exact scenario_reachable_scalar|].
  exact (proj1 (proj2 scalar_fields_keep_root_free) scenario
           scenario_reachable_scalar).
Defined.

(** C9 fails on the code.  CreateFolder is called with the array ["root"] as
    [parentId]: the array is not [=== "root"], the binder spreads it, and
    the new folder row is stored with the literal "root" as its parent; an
    upload with the array ["root"] as [folderId] stores a file row with the
    literal "root" as its folder.  Both states are reachable. *)
Lemma array_root_is_stored :
  let r := post_folders (JsStr "F9") (JsArr [JsStr "root"]) "f9"
             "2024-01-03 00:00:00" scenario in
  let u := post_upload (Some b_txt) (JsArr [JsStr "root"]) "b"
             "2024-01-03 00:00:01" scenario in
  r.2 = json 200 (BCreated "f9" (JsStr "F9")) ∧
  folders r.1 =
    folders scenario ++
      [Folder.mk "f9" "F9" (Some "root") "2024-01-03 00:00:00"] ∧
  reachable r.1 ∧ ¬ root_free r.1 ∧
  u.2 = json 200 (BCreated "b" (JsStr "B.txt")) ∧
  files u.1 =
    files scenario ++
      [File.mk "b" (storage_filename b_txt) "B.txt" "text/plain" 7
         (Some "root") "2024-01-03 00:00:01"] ∧
  reachable u.1 ∧ ¬ root_free u.1.
Proof.
  split_and!.
  - vm_compute. reflexivity.
  - vm_compute. reflexivity.
  - apply (reachable_serve scenario
             (PostFolders (JsStr "F9") (JsArr [JsStr "root"]) "f9"
                "2024-01-03 00:00:00")), scenario_reachable.
  - intros [Hfo _].
    apply (Hfo (Folder.mk "f9" "F9" (Some "root") "2024-01-03 00:00:00"));
      [by_decide|reflexivity].
  - vm_compute. reflexivity.
  - vm_compute. reflexivity.
  - apply (reachable_serve scenario
             (PostUpload (Some b_txt) (JsArr [JsStr "root"]) "b"
                "2024-01-03 00:00:01")), scenario_reachable.
  - intros [_ Hfi].
    apply (Hfi (File.mk "b" (storage_filename b_txt) "B.txt" "text/plain" 7
                  (Some "root") "2024-01-03 00:00:01"));
      [by_decide|reflexivity].
Qed.

Lemma post_rename_kind_not_file_witness :
  "f2" ≠ "" ∧ truthy (JsStr "shortcut") = true ∧
  is_str "file" (JsStr "shortcut") = false ∧ "Renamed" ≠ "" ∧
  (post_rename (JsStr "f2") (JsStr "shortcut") (JsStr "Renamed") scenario).2 =
    json 200 BSuccess ∧
  Folder.mk "f2" "Renamed" (Some "f1") "2024-01-01 00:00:01"
    ∈ folders (post_rename (JsStr "f2") (JsStr "shortcut") (JsStr "Renamed")
                 scenario).1 ∧
  files (post_rename (JsStr "f2") (JsStr "shortcut") (JsStr "Renamed")
           scenario).1 = files scenario.
Proof.
  assert ("f2" ≠ "") as Hi by by_decide.
  assert (truthy (JsStr "shortcut") = true) as Hk by reflexivity.
  assert (is_str "file" (JsStr "shortcut") = false) as Hf by reflexivity.
  assert ("Renamed" ≠ "") as Hs by by_decide.
  destruct (post_rename_kind_not_file "f2" (JsStr "shortcut") "Renamed"
              scenario Hi Hk Hf Hs) as (Hok & Hfiles & _ & Hrow & _).
  split_and!; [exact Hi|exact Hk|exact Hf|exact Hs|exact Hok| |exact Hfiles].
  apply (Hrow (Folder.mk "f2" "F2" (Some "f1") "2024-01-01 00:00:01"));
    [by_decide|reflexivity].
Defined.
(** * Further properties of the routes *)

(** ** POST /api/folders *)

(** The parent that is stored for a scalar [parentId]. *)
Lemma stored_parent v :
  match from_wire v with JsStr x => Some x | _ => None end =
    match v with JsStr s => decode_folder s | _ => None end.
Proof.
  unfold from_wire, decode_folder. destruct v as [| | | |s| |]; simpl; try done.
  by case_bool_decide; [rewrite decide_True|rewrite decide_False].
Qed.

Lemma post_folders_run n parentId id now w :
  n ≠ "" → scalar parentId = true →
  post_folders (JsStr n) parentId id now w =
    if bool_decide (id ∈ Folder.id <$> folders w)
    then (w, json 500 (BError "Failed to create folder"))
    else (log (DbInsertFolder id)
            (with_folders
               (folders w ++
                  [Folder.mk id n
                     (match parentId with
                      | JsStr s => decode_folder s
                      | _ => None
                      end) now]) w),
          json 200 (BCreated id (JsStr n))).
Proof.
  intros Hn Hp. unfold post_folders. simpl.
  rewrite bool_decide_eq_true_2 by done. simpl.
  unfold try_catch, insert_folder. rewrite !bind_run.
  rewrite bind_params_two_str by by apply scalar_from_wire.
  rewrite stored_parent. step_m. by case_bool_decide.
Qed.

Lemma post_folders_status name parentId id now w :
  truthy name = true →
  status (post_folders name parentId id now w).2 = 200%N ∨
  status (post_folders name parentId id now w).2 = 500%N.
Proof.
  intros Hname. unfold post_folders. rewrite Hname. simpl.
  unfold try_catch. rewrite bind_run.
  destruct (insert_folder _ _ _ _ w) as [w1 [[]|e]]; simpl; auto.
Qed.

(** CreateFolder answers 400 exactly when the name is falsy, whatever else
    is sent, and unless it answers 200 it changes nothing.  For a non-empty
    string as name and a [parentId] that is absent, null or a string, it
    answers 200 exactly when the drawn id is not yet a folder id; it has
    then appended one folder row, whose parent is NULL for an absent, null
    or "root" [parentId] and the given string otherwise (whether or not a
    folder with that id exists), and has touched neither the files table
    nor the uploads directory. *)
Theorem post_folders_outcome name parentId id now w :
  let r := post_folders name parentId id now w in
  (status r.2 = 400%N ↔ truthy name = false) ∧
  (status r.2 ≠ 200%N → r.1 = w) ∧
  (∀ n, name = JsStr n → n ≠ "" → scalar parentId = true →
     (status r.2 = 200%N ↔ id ∉ Folder.id <$> folders w) ∧
     (status r.2 = 200%N →
      r.2 = json 200 (BCreated id name) ∧
      folders r.1 =
        folders w ++
          [Folder.mk id n
             (match parentId with JsStr s => decode_folder s | _ => None end)
             now] ∧
      files r.1 = files w ∧ uploads r.1 = uploads w)).
Proof.
  simpl. split_and!.
  - destruct (truthy name) eqn:Hname.
    + destruct (post_folders_status name parentId id now w Hname) as [->| ->];
        done.
    + unfold post_folders. by rewrite Hname.
  - intros Hst.
    destruct (post_folders_cases name parentId id now w)
      as [Hw|(n & p & _ & _ & Hok & _)]; [done|].
    simpl in Hok. by rewrite Hok in Hst.
  - intros n -> Hn Hp. rewrite (post_folders_run n parentId id now w Hn Hp).
    case_bool_decide; simpl; split_and!; try done; naive_solver.
Qed.

Lemma post_folders_outcome_witness :
  status (post_folders (JsStr "F3") JsUndefined "f3" "2024-01-02 00:00:00"
            scenario).2 = 200%N ∧
  folders (post_folders (JsStr "F3") JsUndefined "f3" "2024-01-02 00:00:00"
             scenario).1 =
    folders scenario ++ [Folder.mk "f3" "F3" None "2024-01-02 00:00:00"] ∧
  (post_folders (JsStr "F3") (JsStr "nowhere") "f1" "2024-01-02 00:00:00"
     scenario).1 = scenario ∧
  status (post_folders (JsStr "") (JsStr "root") "f3" "2024-01-02 00:00:00"
            scenario).2 = 400%N.
Proof.
  assert (status (post_folders (JsStr "F3") JsUndefined "f3"
                    "2024-01-02 00:00:00" scenario).2 = 200%N) as Hok.
  { apply (proj2 (proj2 (post_folders_outcome (JsStr "F3") JsUndefined "f3"
                           "2024-01-02 00:00:00" scenario)) "F3");
      [reflexivity|by_decide|reflexivity|by_decide]. }
  split_and!; [exact Hok| | |].
  - apply (proj2 (proj2 (post_folders_outcome (JsStr "F3") JsUndefined "f3"
                           "2024-01-02 00:00:00" scenario)) "F3");
      [reflexivity|by_decide|reflexivity|exact Hok].
  - apply (proj1 (proj2 (post_folders_outcome (JsStr "F3")
             (JsStr "nowhere") "f1" "2024-01-02 00:00:00" scenario))).
    vm_compute. lia.
  - apply (proj1 (post_folders_outcome (JsStr "") (JsStr "root") "f3"
                    "2024-01-02 00:00:00" scenario)).
    reflexivity.
Defined.

(** ** GET /api/contents after a write *)

Lemma get_contents_run s w :
  get_contents (JsStr s) w =
    (w, json 200 (BContents (select_folders_by_parent (decode_folder s) w)
                            (select_files_by_folder (decode_folder s) w))).
Proof.
  unfold get_contents, try_catch, from_wire, decode_folder. simpl.
  by case_bool_decide; [rewrite decide_True|rewrite decide_False].
Qed.

Lemma elem_of_select_folders f p w :
  f ∈ select_folders_by_parent p w ↔ f ∈ folders w ∧ Folder.parent_id f = p.
Proof.
  unfold select_folders_by_parent.
  rewrite merge_sort_Permutation, list_elem_of_filter. tauto.
Qed.

Lemma elem_of_select_files f p w :
  f ∈ select_files_by_folder p w ↔ f ∈ files w ∧ File.folder_id f = p.
Proof.
  unfold select_files_by_folder.
  rewrite merge_sort_Permutation, list_elem_of_filter. tauto.
Qed.

(** A folder that CreateFolder has created under a [parentId] is listed by
    ListContents of that same [parentId], next to the folders that were
    listed there before and no others; the files listed there are the same
    as before. *)
Theorem post_folders_then_get_contents n s id now w :
  status (post_folders (JsStr n) (JsStr s) id now w).2 = 200%N →
  let w' := (post_folders (JsStr n) (JsStr s) id now w).1 in
  ∃ fo fi,
    get_contents (JsStr s) w' = (w', json 200 (BContents fo fi)) ∧
    Folder.mk id n (decode_folder s) now ∈ fo ∧
    (∀ f, f ∈ fo ↔
          f = Folder.mk id n (decode_folder s) now ∨
          f ∈ select_folders_by_parent (decode_folder s) w) ∧
    fi = select_files_by_folder (decode_folder s) w.
Proof.
  intros Hok.
  assert (folders (post_folders (JsStr n) (JsStr s) id now w).1 =
            folders w ++ [Folder.mk id n (decode_folder s) now] ∧
          files (post_folders (JsStr n) (JsStr s) id now w).1 = files w)
    as [Hfo Hfi].
  { revert Hok. destruct (decide (n = "")) as [->|Hn]; [done|].
    rewrite (post_folders_run n (JsStr s) id now w Hn eq_refl).
    by case_bool_decide. }
  simpl. eexists _, _. split; [apply get_contents_run|].
  assert (∀ f, f ∈ select_folders_by_parent (decode_folder s)
                     (post_folders (JsStr n) (JsStr s) id now w).1 ↔
               f = Folder.mk id n (decode_folder s) now ∨
               f ∈ select_folders_by_parent (decode_folder s) w) as Hin.
  { intros f. rewrite !elem_of_select_folders, Hfo, elem_of_app,
      list_elem_of_singleton. naive_solver. }
  split_and!.
  - apply Hin. by left.
  - exact Hin.
  - unfold select_files_by_folder. by rewrite Hfi.
Qed.

Lemma post_folders_then_get_contents_witness :
  status (post_folders (JsStr "F3") (JsStr "f1") "f3" "2024-01-02 00:00:00"
            scenario).2 = 200%N ∧
  ∃ fo fi,
    get_contents (JsStr "f1")
      (post_folders (JsStr "F3") (JsStr "f1") "f3" "2024-01-02 00:00:00"
         scenario).1 =
      ((post_folders (JsStr "F3") (JsStr "f1") "f3" "2024-01-02 00:00:00"
          scenario).1, json 200 (BContents fo fi)) ∧
    Folder.mk "f3" "F3" (Some "f1") "2024-01-02 00:00:00" ∈ fo.
Proof.
  assert (status (post_folders (JsStr "F3") (JsStr "f1") "f3"
                    "2024-01-02 00:00:00" scenario).2 = 200%N) as Hok
    by (vm_compute; reflexivity).
  split; [exact Hok|].
  destruct (post_folders_then_get_contents "F3" "f1" "f3"
              "2024-01-02 00:00:00" scenario Hok)
    as (fo & fi & Hrun & Hin & _).
  exists fo, fi. split; [exact Hrun|exact Hin].
Defined.

(** ** POST /api/upload, and reading the file back *)

Lemma post_upload_ok p folderId fileId now w :
  status (post_upload (Some p) folderId fileId now w).2 = 200%N →
  ∃ q, part_originalname p ≠ "" ∧
       (fileId ∉ File.id <$> files w) ∧
       sole_param (from_wire folderId) = Some q ∧
       post_upload (Some p) folderId fileId now w =
         (log (DbInsertFile fileId)
            (with_files
               (files w ++
                  [File.mk fileId (storage_filename p) (part_originalname p)
                     (part_mimetype p) (part_size p) q now])
               (log (FsWrite (storage_filename p))
                  (with_uploads (uploads w ∪ {[storage_filename p]}) w))),
          json 200 (BCreated fileId (JsStr (part_originalname p)))).
Proof.
  intros Hok.
  destruct (post_upload_cases (Some p) folderId fileId now w)
    as [[_ H400]|(p' & [= <-] & Hname & [Hr|(q & Hfresh & Hq & Hr)])];
    simpl in *.
  - by rewrite H400 in Hok.
  - by rewrite Hr in Hok.
  - by exists q.
Qed.

(** UploadFile answers 400 exactly when the request has no file part or the
    part has no file name, and then changes nothing.  For a part with a
    file name and a [folderId] that is absent, null or a string, it answers
    200 exactly when the drawn id is not yet a file id; it has then written
    the blob first and inserted the row second, the row carrying the
    generated blob name, the part's original name, type and size, and NULL
    as folder for an absent, null or "root" [folderId]; the rows and blobs
    that were there before are all still there. *)
Theorem post_upload_outcome part folderId fileId now w :
  let r := post_upload part folderId fileId now w in
  (status r.2 = 400%N ↔
     part = None ∨ ∃ p, part = Some p ∧ part_originalname p = "") ∧
  (status r.2 = 400%N → r.1 = w) ∧
  (∀ p, part = Some p → part_originalname p ≠ "" → scalar folderId = true →
     (status r.2 = 200%N ↔ fileId ∉ File.id <$> files w) ∧
     (status r.2 = 200%N →
      r.2 = json 200 (BCreated fileId (JsStr (part_originalname p))) ∧
      files r.1 =
        files w ++
          [File.mk fileId (storage_filename p) (part_originalname p)
             (part_mimetype p) (part_size p)
             (match folderId with JsStr s => decode_folder s | _ => None end)
             now] ∧
      folders r.1 = folders w ∧
      uploads r.1 = uploads w ∪ {[storage_filename p]} ∧
      journal r.1 =
        journal w ++ [FsWrite (storage_filename p); DbInsertFile fileId])).
Proof.
  simpl. split_and!.
  - destruct (post_upload_cases part folderId fileId now w)
      as [[_ H400]|(p & -> & Hname & [Hr|(q & _ & _ & Hr)])]; simpl in *.
    + split; [|done]. intros _. destruct part as [p|]; [|by left].
      right. exists p. split; [done|].
      destruct (decide (part_originalname p = "")) as [|Hname]; [done|].
      exfalso. revert H400.
      pose proof (post_upload_run p folderId fileId now w Hname) as Hrun.
      simpl in Hrun. rewrite Hrun. by destruct (_ || _).
    + rewrite Hr. simpl. split; [done|]. intros [[=]|(? & [= <-] & ?)]. done.
    + rewrite Hr. simpl. split; [done|]. intros [[=]|(? & [= <-] & ?)]. done.
  - intros H400.
    destruct (post_upload_cases part folderId fileId now w)
      as [[Hw _]|(p & -> & Hname & [Hr|(q & _ & _ & Hr)])]; simpl in *;
      [done|by rewrite Hr in H400..].
  - intros p -> Hname Hscalar.
    pose proof (post_upload_run p folderId fileId now w Hname) as Hrun.
    simpl in Hrun. rewrite Hrun. clear Hrun.
    rewrite (from_wire_scalar folderId Hscalar). simpl.
    case_bool_decide; simpl; split_and!; try done; try naive_solver.
    intros _. split_and!; try done. by rewrite <- app_assoc.
Qed.

Lemma post_upload_outcome_witness :
  status (post_upload (Some b_txt) JsUndefined "b" "2024-01-01 00:00:03"
            scenario).2 = 200%N ∧
  files (post_upload (Some b_txt) JsUndefined "b" "2024-01-01 00:00:03"
           scenario).1 =
    files scenario ++
      [File.mk "b" (storage_filename b_txt) "B.txt" "text/plain" 7 None
         "2024-01-01 00:00:03"] ∧
  (post_upload None (JsStr "root") "b" "2024-01-01 00:00:03" scenario).1 =
    scenario.
Proof.
  assert (status (post_upload (Some b_txt) JsUndefined "b"
                    "2024-01-01 00:00:03" scenario).2 = 200%N) as Hok.
  { apply (proj2 (proj2 (post_upload_outcome (Some b_txt) JsUndefined "b"
                           "2024-01-01 00:00:03" scenario)) b_txt);
      [reflexivity|by_decide|reflexivity|by_decide]. }
  split_and!; [exact Hok| |].
  - apply (proj2 (proj2 (post_upload_outcome (Some b_txt) JsUndefined "b"
                           "2024-01-01 00:00:03" scenario)) b_txt);
      [reflexivity|by_decide|reflexivity|exact Hok].
  - apply (proj1 (proj2 (post_upload_outcome None (JsStr "root") "b"
                           "2024-01-01 00:00:03" scenario))).
    reflexivity.
Defined.

Lemma get_file_fresh_insert id row w w' :
  id ∉ File.id <$> files w → File.id row = id →
  files w' = files w ++ [row] → get_file id w' = Some row.
Proof.
  intros Hfresh Hid Hfiles. unfold get_file. rewrite Hfiles, filter_app.
  apply get_file_None in Hfresh. unfold get_file in Hfresh.
  apply head_None in Hfresh. rewrite Hfresh. simpl.
  rewrite filter_cons_True by done. done.
Qed.

(** After a successful UploadFile, DownloadFile on the returned id sends the
    blob that multer wrote, as an attachment under the part's original
    name, and ViewFile sends the same blob inline; neither changes
    anything. *)
Theorem post_upload_then_download p folderId fileId now w :
  status (post_upload (Some p) folderId fileId now w).2 = 200%N →
  let w' := (post_upload (Some p) folderId fileId now w).1 in
  get_download fileId w' =
    (w', json 200 (BAttachment (storage_filename p) (part_originalname p))) ∧
  get_view fileId w' = (w', json 200 (BInline (storage_filename p))).
Proof.
  intros (q & _ & Hfresh & _ & ->)%post_upload_ok. simpl.
  set (row := File.mk fileId (storage_filename p) (part_originalname p)
                (part_mimetype p) (part_size p) q now).
  set (w' := log _ _).
  assert (get_file fileId w' = Some row) as Hget.
  { by apply (get_file_fresh_insert fileId row w w' Hfresh). }
  unfold get_download, get_view, res_download, res_sendFile.
  rewrite Hget. simpl.
  rewrite bool_decide_eq_true_2 by set_solver. done.
Qed.

Lemma post_upload_then_download_witness :
  status (post_upload (Some b_txt) (JsStr "f1") "b" "2024-01-01 00:00:03"
            scenario).2 = 200%N ∧
  (get_download "b"
     (post_upload (Some b_txt) (JsStr "f1") "b" "2024-01-01 00:00:03"
        scenario).1).2 =
    json 200 (BAttachment (storage_filename b_txt) "B.txt").
Proof.
  assert (status (post_upload (Some b_txt) (JsStr "f1") "b"
                    "2024-01-01 00:00:03" scenario).2 = 200%N) as Hok
    by (vm_compute; reflexivity).
  split; [exact Hok|].
  destruct (post_upload_then_download b_txt (JsStr "f1") "b"
              "2024-01-01 00:00:03" scenario Hok) as [Hd _].
  rewrite Hd. reflexivity.
Defined.

(** ** GET /api/files *)

Lemma sum_sizes_Permutation l k : l ≡ₚ k → sum_sizes l = sum_sizes k.
Proof.
  induction 1 as [|x l k _ IH|x y l|l k m _ IH1 _ IH2]; simpl;
    [done|by rewrite IH|lia|congruence].
Qed.

(** ListFiles answers with all file rows, each once, by descending upload
    date, and changes nothing; the length of its list and the sum of the
    sizes in it are the [count] and [totalSize] that ComputeStats gives in
    the same state. *)
Theorem get_files_lists_every_row w :
  ∃ l, get_files w = (w, json 200 (BFiles l)) ∧
       l ≡ₚ files w ∧
       StronglySorted upload_date_desc l ∧
       (get_stats w).2 =
         json 200 (BStats (N.of_nat (length l)) (sum_sizes l)).
Proof.
  exists (select_all_files w). split_and!.
  - reflexivity.
  - apply merge_sort_Permutation.
  - apply StronglySorted_merge_sort; apply _.
  - rewrite get_stats_run. unfold count_of, total_size_of, select_all_files.
    pose proof (merge_sort_Permutation upload_date_desc (files w)) as Hperm.
    by rewrite (Permutation_length Hperm), (sum_sizes_Permutation _ _ Hperm).
Qed.

(** ** GET /api/files/:id/view *)

(** ViewFile answers with the status DownloadFile gives for the same id: 404
    when no row has the id or the row's blob is not in the uploads
    directory, 200 otherwise, when it sends the blob of the first row with
    that id inline and DownloadFile sends the same blob as an attachment. *)
Theorem get_view_as_get_download id w :
  status (get_view id w).2 = status (get_download id w).2 ∧
  (status (get_view id w).2 = 200%N ↔
     ∃ f, get_file id w = Some f ∧ File.name f ∈ uploads w) ∧
  (∀ f, get_file id w = Some f → File.name f ∈ uploads w →
        (get_view id w).2 = json 200 (BInline (File.name f)) ∧
        (get_download id w).2 =
          json 200 (BAttachment (File.name f) (File.original_name f))) ∧
  (status (get_view id w).2 = 200%N ∨ status (get_view id w).2 = 404%N).
Proof.
  unfold get_view, get_download, res_sendFile, res_download.
  destruct (get_file id w) as [f|]; simpl; [case_bool_decide; simpl|];
    (split; [done|]); (split; [|split]); naive_solver.
Qed.

Lemma get_view_as_get_download_witness :
  (get_view "a" scenario).2 = json 200 (BInline (File.name a_txt_row)) ∧
  status (get_view "a" scenario_blob_gone).2 = 404%N.
Proof.
  split.
  - apply (proj1 (proj2 (proj2 (get_view_as_get_download "a" scenario)))
             a_txt_row); [vm_compute; reflexivity|by_decide].
  - rewrite (proj1 (get_view_as_get_download "a" scenario_blob_gone)).
    vm_compute. reflexivity.
Defined.

(** ** The GET routes *)

(** No GET route writes: whatever the request, the tables, the uploads
    directory and the journal of writes are afterwards what they were. *)
Theorem get_routes_change_nothing r w :
  is_get r = true → (serve r w).1 = w.
Proof.
  destruct r; simpl; try done; intros _;
    try apply get_contents_pure; try (by rewrite get_stats_run);
    unfold get_download, get_view; by destruct (get_file id w).
Qed.

Lemma get_routes_change_nothing_witness :
  (serve (GetContents JsUndefined) scenario).1 = scenario ∧
  (serve (GetDownload "a") scenario_blob_gone).1 = scenario_blob_gone.
Proof.
  split.
  - apply (get_routes_change_nothing (GetContents JsUndefined) scenario).
    reflexivity.
  - apply (get_routes_change_nothing (GetDownload "a") scenario_blob_gone).
    reflexivity.
Defined.

(** ** The primary keys *)

Lemma head_filter_key {A} (key : A → string) (l : list A) x :
  NoDup (key <$> l) → x ∈ l →
  head (filter (λ y, key y = key x) l) = Some x.
Proof.
  induction l as [|y l IH]; [by intros _ ?%not_elem_of_nil|].
  rewrite fmap_cons, NoDup_cons. intros [Hy Hl] Hx.
  rewrite filter_cons. apply elem_of_cons in Hx as [->|Hx].
  - by rewrite decide_True.
  - rewrite decide_False; [by apply IH|].
    intros Heq. apply Hy. rewrite Heq. by apply list_elem_of_fmap_2.
Qed.

(** In every state the server can reach, no two file rows and no two folder
    rows have the same id, so the lookup by id that the download, view and
    delete routes start with finds each stored file row under its own id. *)
Theorem reachable_lookup_by_id w :
  reachable w →
  NoDup (Folder.id <$> folders w) ∧
  NoDup (File.id <$> files w) ∧
  (∀ f, f ∈ files w → get_file (File.id f) w = Some f).
Proof.
  intros [Hfo Hfi]%reachable_keys_unique. split_and!; [done..|].
  intros f Hf. unfold get_file. by apply head_filter_key.
Qed.

Lemma reachable_lookup_by_id_witness :
  reachable scenario ∧ get_file "a" scenario = Some a_txt_row.
Proof.
  split; [exact scenario_reachable|].
  apply (proj2 (proj2 (reachable_lookup_by_id scenario scenario_reachable))
           a_txt_row).
  by_decide.
Defined.

(** ** DELETE /api/folders/:id when a blob cannot be removed *)

Lemma for_each_unlink_thrown keys w w' e :
  for_each keys unlink_if_exists w = (w', Thrown e) →
  ∃ k, k ∈ keys ∧ k ∈ uploads w ∧ k ∈ stuck w.
Proof.
  revert w. induction keys as [|k keys IH]; intros w; simpl; [done|].
  rewrite bind_run, unlink_if_exists_run.
  repeat case_bool_decide; simpl.
  - intros _. exists k. split_and!; [left|done..].
  - intros (k' & Hk' & Hin & Hst)%IH. simpl in *.
    exists k'. split_and!; [by right|set_solver|done].
  - intros (k' & Hk' & Hin & Hst)%IH.
    exists k'. split_and!; [by right|done..].
Qed.

Lemma for_each_unlink_others keys w k :
  k ∉ keys →
  k ∈ uploads (for_each keys unlink_if_exists w).1 ↔ k ∈ uploads w.
Proof.
  revert w. induction keys as [|k' keys IH]; intros w Hk; simpl; [done|].
  apply not_elem_of_cons in Hk as [Hne Hk].
  rewrite bind_run, unlink_if_exists_run.
  repeat case_bool_decide; simpl; [done| |by apply IH].
  rewrite IH by done. simpl. set_solver.
Qed.

Lemma for_each_unlink_blocked keys w k :
  k ∈ keys → k ∈ uploads w → k ∈ stuck w →
  ∃ w' e, for_each keys unlink_if_exists w = (w', Thrown e).
Proof.
  revert w. induction keys as [|k' keys IH]; intros w Hk Hin Hst;
    [by apply not_elem_of_nil in Hk|]. simpl.
  rewrite bind_run, unlink_if_exists_run.
  repeat case_bool_decide; simpl.
  - by eexists _, _.
  - apply IH; simpl; [|set_solver|done].
    apply elem_of_cons in Hk as [->|Hk]; done.
  - apply IH; [|done..].
    apply elem_of_cons in Hk as [->|Hk]; done.
Qed.

(** DeleteFolder answers 200 exactly when none of the blobs of the files
    directly in the folder is both present and impossible to remove;
    otherwise it answers 500 "Failed to delete folder" and has run neither
    DELETE statement: both tables are as before, although blobs of the
    folder's files may already be gone.  Either way no blob of any other
    file is touched. *)
Theorem delete_folders_all_or_500 id w :
  let r := delete_folders id w in
  (status r.2 = 200%N ↔
     ∀ k, k ∈ select_names_in_folder id w → k ∈ uploads w → k ∉ stuck w) ∧
  (status r.2 ≠ 200%N →
     r.2 = json 500 (BError "Failed to delete folder") ∧
     folders r.1 = folders w ∧ files r.1 = files w ∧
     uploads r.1 ⊆ uploads w) ∧
  (∀ k, k ∉ select_names_in_folder id w →
        k ∈ uploads r.1 ↔ k ∈ uploads w).
Proof.
  simpl. rewrite delete_folders_run.
  pose proof (for_each_unlink_frame (select_names_in_folder id w) w) as Hframe.
  pose proof (for_each_unlink_blocked (select_names_in_folder id w) w) as Hblk.
  pose proof (for_each_unlink_thrown (select_names_in_folder id w) w) as Hthrown.
  pose proof (for_each_unlink_others (select_names_in_folder id w) w) as Hothers.
  destruct (for_each _ _ w) as [w1 [[]|e]]; simpl in *.
  - split_and!; try done.
    split; [|done]. intros _ k Hk Hin Hst.
    by destruct (Hblk k Hk Hin Hst) as (? & ? & ?).
  - destruct Hframe as (Hfo & Hfi & _ & Hsub).
    destruct (Hthrown w1 e eq_refl) as (k & Hk & Hin & Hst).
    split_and!; try done. split; [done|]. intros Hfree.
    exfalso. by apply (Hfree k).
Qed.

Lemma delete_folders_all_or_500_witness :
  (delete_folders "f2" scenario_blob_stuck).2 =
    json 500 (BError "Failed to delete folder") ∧
  files (delete_folders "f2" scenario_blob_stuck).1 =
    files scenario_blob_stuck ∧
  status (delete_folders "f2" scenario).2 = 200%N.
Proof.
  assert (status (delete_folders "f2" scenario_blob_stuck).2 ≠ 200%N) as Hno.
  { vm_compute. lia. }
  destruct (proj1 (proj2 (delete_folders_all_or_500 "f2" scenario_blob_stuck))
              Hno) as (H500 & _ & Hfiles & _).
  split_and!; [exact H500|exact Hfiles|].
  apply (proj1 (delete_folders_all_or_500 "f2" scenario)).
  intros k Hk _. by_decide.
Defined.

(** ** POST /api/rename on a file *)

Lemma head_filter_fmap_key {A} (key : A → string) (g : A → A) k (l : list A) :
  (∀ x, key (g x) = key x) →
  head (filter (λ y, key y = k) (g <$> l)) =
    g <$> head (filter (λ y, key y = k) l).
Proof.
  intros Hg. induction l as [|x l IH]; [done|].
  rewrite fmap_cons, !filter_cons, Hg.
  by case_decide.
Qed.

Lemma post_rename_file_run i s w :
  i ≠ "" → s ≠ "" →
  post_rename (JsStr i) (JsStr "file") (JsStr s) w =
    (log (DbUpdateFile (Some i))
       (with_files ((λ f, if decide (Some (File.id f) = Some i)
                          then File.set_original_name s f else f)
                    <$> files w) w), json 200 BSuccess).
Proof.
  intros Hi Hs. unfold post_rename. simpl.
  rewrite !bool_decide_eq_true_2 by done. reflexivity.
Qed.

(** Renaming a file changes the [original_name] of the row with that id and
    nothing else: the row keeps its blob name, type, size, folder and date,
    every other row, the folders table and the uploads directory are as
    before, and a later DownloadFile sends the same blob under the new
    name. *)
Theorem post_rename_file_then_download i s w :
  i ≠ "" → s ≠ "" →
  let r := post_rename (JsStr i) (JsStr "file") (JsStr s) w in
  r.2 = json 200 BSuccess ∧
  get_file i r.1 = File.set_original_name s <$> get_file i w ∧
  (∀ j, j ≠ i → get_file j r.1 = get_file j w) ∧
  folders r.1 = folders w ∧ uploads r.1 = uploads w ∧
  (∀ f, get_file i w = Some f → File.name f ∈ uploads w →
        get_download i r.1 = (r.1, json 200 (BAttachment (File.name f) s))).
Proof.
  intros Hi Hs. simpl. rewrite (post_rename_file_run i s w Hi Hs). simpl.
  set (g := λ f, if decide (Some (File.id f) = Some i)
                 then File.set_original_name s f else f).
  assert (∀ x, File.id (g x) = File.id x) as Hg.
  { intros x. unfold g. by case_decide. }
  assert (∀ j, get_file j
                 (log (DbUpdateFile (Some i)) (with_files (g <$> files w) w)) =
               g <$> get_file j w) as Hget.
  { intros j. unfold get_file. simpl. by apply head_filter_fmap_key. }
  split_and!; try done.
  - rewrite Hget. destruct (get_file i w) as [f|] eqn:Hf; [|done].
    apply get_file_Some in Hf as [_ Hid]. simpl. unfold g.
    by rewrite decide_True by congruence.
  - intros j Hj. rewrite Hget.
    destruct (get_file j w) as [f|] eqn:Hf; [|done].
    apply get_file_Some in Hf as [_ Hid]. simpl. unfold g.
    by rewrite decide_False by congruence.
  - intros f Hf Hin. unfold get_download. rewrite Hget, Hf. simpl.
    apply get_file_Some in Hf as [_ Hid]. unfold g, res_download.
    rewrite decide_True by congruence. simpl.
    by rewrite bool_decide_eq_true_2.
Qed.

Lemma post_rename_file_then_download_witness :
  "a" ≠ "" ∧ "notes.txt" ≠ "" ∧
  (get_download "a"
     (post_rename (JsStr "a") (JsStr "file") (JsStr "notes.txt") scenario).1).2 =
    json 200 (BAttachment (File.name a_txt_row) "notes.txt").
Proof.
  assert ("a" ≠ "") as Hi by by_decide.
  assert ("notes.txt" ≠ "") as Hs by by_decide.
  destruct (post_rename_file_then_download "a" "notes.txt" scenario Hi Hs)
    as (_ & _ & _ & _ & _ & Hd).
  split_and!; [exact Hi|exact Hs|].
  rewrite (Hd a_txt_row); [reflexivity|vm_compute; reflexivity|by_decide].
Defined.

(** ** The sentinel "root" as a folder id *)

Lemma scenario_root_free : root_free scenario.
Proof. apply reachable_scalar_root_free, scenario_reachable_scalar. Qed.



(** In every state in which no row has the literal "root" as parent or
    folder, ListContents lists a file row under exactly one [folderId]: the
    id of its folder, or "root" when its folder is NULL; and likewise a
    folder row under the id of its parent. *)
Theorem get_contents_lists_each_row_once w s :
  root_free w →
  (∀ f, f ∈ files w →
        f ∈ select_files_by_folder (decode_folder s) w ↔
        s = to_wire (File.folder_id f)) ∧
  (∀ d, d ∈ folders w →
        d ∈ select_folders_by_parent (decode_folder s) w ↔
        s = to_wire (Folder.parent_id d)) ∧
  get_contents (JsStr s) w =
    (w, json 200 (BContents (select_folders_by_parent (decode_folder s) w)
                            (select_files_by_folder (decode_folder s) w))).
Proof.
  intros [Hfo Hfi].
  assert (∀ p : option string,
            p ≠ Some "root" → decode_folder s = p ↔ s = to_wire p) as Hdec.
  { intros [x|] Hx; unfold decode_folder; simpl; case_decide; naive_solver. }
  split_and!.
  - intros f Hf. rewrite elem_of_select_files.
    rewrite <- Hdec by by apply Hfi. naive_solver.
  - intros d Hd. rewrite elem_of_select_folders.
    rewrite <- Hdec by by apply Hfo. naive_solver.
  - apply get_contents_run.
Qed.

Lemma get_contents_lists_each_row_once_witness :
  root_free scenario ∧
  (a_txt_row ∈ select_files_by_folder (decode_folder "f2") scenario ↔
   "f2" = to_wire (File.folder_id a_txt_row)).
Proof.
  split; [exact scenario_root_free|].
  apply (proj1 (get_contents_lists_each_row_once scenario "f2"
                  scenario_root_free) a_txt_row).
  by_decide.
Defined.

(** ** What each request can do to the blobs and to the file rows *)

Lemma post_folders_frame name parentId id now w :
  let w' := (post_folders name parentId id now w).1 in
  files w' = files w ∧ uploads w' = uploads w ∧ stuck w' = stuck w.
Proof.
  destruct (post_folders_cases name parentId id now w)
    as [->|(n & p & _ & -> & _)]; done.
Qed.

Lemma post_rename_frame id type newName w :
  let w' := (post_rename id type newName w).1 in
  File.set_original_name "" <$> files w' =
    File.set_original_name "" <$> files w ∧
  uploads w' = uploads w ∧ stuck w' = stuck w.
Proof.
  cbv zeta.
  destruct (post_rename_cases id type newName w)
    as (-> & -> & [->|(s & i & ->)] & _); simpl; split_and!; try done.
  rewrite <- list_fmap_compose. apply list_fmap_ext.
  intros _ f _. simpl. by case_decide.
Qed.

(** A request never changes which blobs are undeletable.  A blob appears in
    the uploads directory only as the file part of an upload, under the
    name multer generated for it; a blob disappears only when DeleteFolder
    runs on a folder that directly holds a file row with that blob name, or
    DeleteFile on the id of such a row. *)
Theorem blobs_change_only_by_upload_and_delete r w :
  stuck (serve r w).1 = stuck w ∧
  (∀ k, k ∈ uploads (serve r w).1 → k ∉ uploads w →
        ∃ p folderId fileId now,
          r = PostUpload (Some p) folderId fileId now ∧
          k = storage_filename p) ∧
  (∀ k, k ∈ uploads w → k ∉ uploads (serve r w).1 →
        (∃ id, r = DeleteFolders id ∧ k ∈ select_names_in_folder id w) ∨
        (∃ id f, r = DeleteFiles id ∧ get_file id w = Some f ∧
                 k = File.name f)).
Proof.
  destruct r; simpl.
  - rewrite get_contents_pure. naive_solver.
  - destruct (post_folders_frame name parentId id now w) as (_ & -> & ->).
    naive_solver.
  - pose proof (for_each_unlink_frame (select_names_in_folder id w) w) as Hf.
    pose proof (for_each_unlink_others (select_names_in_folder id w) w) as Ho.
    rewrite delete_folders_run.
    destruct (for_each _ _ w) as [w1 [[]|e]]; simpl in *;
      destruct Hf as (_ & _ & Hst & Hsub).
    all: split_and!; [done|intros k Hk Hn; set_solver|].
    all: intros k Hk Hn; left; exists id; split; [done|].
    all: destruct (decide (k ∈ select_names_in_folder id w)) as [|Hout];
      [done|].
    all: exfalso; apply Hn; by apply Ho.
  - naive_solver.
  - destruct (post_upload_cases part folderId fileId now w)
      as [[-> _]|(p & -> & _ & [->|(q & _ & _ & ->)])];
      [naive_solver|..]; simpl; split_and!; try done.
    all: try (intros k Hk Hn; exists p, folderId, fileId, now; set_solver).
    all: intros k Hk Hn; set_solver.
  - unfold get_download. destruct (get_file id w); naive_solver.
  - destruct (get_file id w) as [f|] eqn:Hget.
    + rewrite (delete_files_run id f w Hget).
      repeat case_bool_decide; simpl; split_and!; try done.
      all: try (intros k Hk Hn; set_solver).
      intros k Hk Hn. right. exists id, f.
      split; [done|split; [done|]].
      apply not_elem_of_difference in Hn as [Hn|Hn]; [done|].
      by apply elem_of_singleton in Hn.
    + unfold delete_files. rewrite Hget. naive_solver.
  - unfold get_view. destruct (get_file id w); naive_solver.
  - destruct (post_rename_frame id type newName w) as (_ & -> & ->).
    naive_solver.
  - naive_solver.
Qed.

Lemma sum_sizes_fmap (g : File.t → File.t) l :
  (∀ x, File.size (g x) = File.size x) → sum_sizes (g <$> l) = sum_sizes l.
Proof.
  intros Hg. unfold sum_sizes. induction l as [|x l IH]; simpl; [done|].
  rewrite Hg. f_equal. exact IH.
Qed.

(** Only UploadFile, DeleteFolder and DeleteFile change the file rows in
    anything but [original_name]: after any other request the rows are the
    same in number and order and agree with the old ones in id, blob name,
    type, size, folder and date, and ComputeStats answers as before. *)
Theorem file_rows_change_only_by_upload_and_delete r w :
  keeps_file_rows r = true →
  File.set_original_name "" <$> files (serve r w).1 =
    File.set_original_name "" <$> files w ∧
  (get_stats (serve r w).1).2 = (get_stats w).2.
Proof.
  intros Hr.
  assert (File.set_original_name "" <$> files (serve r w).1 =
          File.set_original_name "" <$> files w) as Hrows.
  { destruct r; simpl in *; try done.
    - by rewrite get_contents_pure.
    - by destruct (post_folders_frame name parentId id now w) as (-> & _).
    - unfold get_download. by destruct (get_file id w).
    - unfold get_view. by destruct (get_file id w).
    - by destruct (post_rename_frame id type newName w) as (-> & _). }
  split; [done|].
  rewrite !get_stats_run. unfold count_of, total_size_of.
  rewrite <- (length_fmap (File.set_original_name "") (files (serve r w).1)).
  rewrite <- (sum_sizes_fmap (File.set_original_name "")
                (files (serve r w).1)) by done.
  rewrite Hrows, length_fmap, sum_sizes_fmap by done. done.
Qed.

Lemma file_rows_change_only_by_upload_and_delete_witness :
  (get_stats
     (serve (PostRename (JsStr "a") (JsStr "file") (JsStr "notes.txt"))
        scenario).1).2 = (get_stats scenario).2.
Proof.
  apply (file_rows_change_only_by_upload_and_delete
           (PostRename (JsStr "a") (JsStr "file") (JsStr "notes.txt"))
           scenario).
  reflexivity.
Defined.

(** ** The names multer generates *)

Lemma append_nil (t : string) : "" +:+ t = t.
Proof. reflexivity. Qed.

Lemma append_cons c (s t : string) : String c s +:+ t = String c (s +:+ t).
Proof. reflexivity. Qed.

Lemma string_app_assoc (a b c : string) : (a +:+ b) +:+ c = a +:+ b +:+ c.
Proof.
  induction a as [|x a IH]; [done|]. rewrite !append_cons. by f_equal.
Qed.

Lemma dash_split a b x y :
  no_dash a = true → no_dash b = true →
  a +:+ "-" +:+ x = b +:+ "-" +:+ y → a = b ∧ x = y.
Proof.
  revert b. induction a as [|c a IH]; intros [|d b];
    repeat (rewrite append_nil || rewrite append_cons); simpl.
  - intros _ _ [= ->]. done.
  - intros _ [Hd _]%andb_prop [= <- _].
    by rewrite bool_decide_eq_true_2 in Hd.
  - intros [Hc _]%andb_prop _ [= -> _].
    by rewrite bool_decide_eq_true_2 in Hc.
  - intros [_ Ha]%andb_prop [_ Hb]%andb_prop [= -> Heq].
    destruct (IH b Ha Hb Heq) as [-> ->]. done.
Qed.

(** Two uploads are stored under the same blob name only if they agree in
    the [Date.now()] value, in the random number and in the original name
    of the part; the decimal prints of the two numbers contain no '-'. *)
Theorem storage_filename_inj p q :
  no_dash (date_now p) = true → no_dash (random_1e9 p) = true →
  no_dash (date_now q) = true → no_dash (random_1e9 q) = true →
  storage_filename p = storage_filename q →
  date_now p = date_now q ∧ random_1e9 p = random_1e9 q ∧
  part_originalname p = part_originalname q.
Proof.
  intros Hdp Hrp Hdq Hrq. unfold storage_filename. cbv zeta.
  rewrite !string_app_assoc.
  intros [Hd Hrest]%dash_split; [|done..].
  apply dash_split in Hrest as [Hr Ho]; done.
Qed.

Lemma storage_filename_inj_witness :
  date_now a_txt = date_now a_txt ∧ random_1e9 a_txt = random_1e9 a_txt ∧
  part_originalname a_txt = part_originalname a_txt.
Proof.
  apply (storage_filename_inj a_txt a_txt); reflexivity.
Defined.

(** ** The client's breadcrumb *)

Lemma findIndex_Some {A} (p : A → bool) l i :
  findIndex p l = Some i →
  ∃ x, l !! i = Some x ∧ p x = true ∧ findIndex p (take (S i) l) = Some i.
Proof.
  revert i. induction l as [|y l IH]; intros i; simpl; [done|].
  destruct (p y) eqn:Hy.
  - intros [= <-]. exists y. simpl. by rewrite Hy.
  - destruct (findIndex p l) as [j|] eqn:Hj; simpl; [|done].
    intros [= <-]. destruct (IH j eq_refl) as (x & Hx & Hpx & Htake).
    exists x. split_and!; [done..|].
    change (take (S (S j)) (y :: l)) with (y :: take (S j) l).
    cbn [findIndex]. by rewrite Htake.
Qed.

Lemma findIndex_None {A} (p : A → bool) l :
  findIndex p l = None → ∀ x, x ∈ l → p x = false.
Proof.
  induction l as [|y l IH]; simpl; [by intros _ x ?%not_elem_of_nil|].
  destruct (p y) eqn:Hy; [done|].
  destruct (findIndex p l); simpl; [done|].
  intros _ x [->|Hx]%elem_of_cons; [done|by apply IH].
Qed.

Lemma findIndex_snoc {A} (p : A → bool) l x :
  findIndex p l = None → p x = true → findIndex p (l ++ [x]) = Some (length l).
Proof.
  intros Hnone Hx. induction l as [|y l IH]; simpl in *; [by rewrite Hx|].
  destruct (p y); [done|].
  destruct (findIndex p l); simpl in *; [done|]. by rewrite IH.
Qed.

(** After any call of [navigateToFolder] the breadcrumb ends at the folder
    that is shown; it is empty exactly when the call was for 'root', and
    then the folder shown is "root"; and a breadcrumb without repeated
    folder ids stays without them. *)
Theorem navigateToFolder_crumbs t s :
  crumbs_end_at_current (navigateToFolder t s) ∧
  (folderPath (navigateToFolder t s) = [] ↔ t = NavRoot) ∧
  (t = NavRoot → navigateToFolder t s = mkNav "root" []) ∧
  (∀ f, t = NavFolder f →
        currentFolderId (navigateToFolder t s) = Folder.id f ∧
        ∃ x, last (folderPath (navigateToFolder t s)) = Some x ∧
             Folder.id x = Folder.id f) ∧
  (NoDup (Folder.id <$> folderPath s) →
   NoDup (Folder.id <$> folderPath (navigateToFolder t s))).
Proof.
  destruct t as [|f]; simpl;
    [split_and!; [done..|by intros ? [=]|constructor]|].
  destruct (findIndex _ (folderPath s)) as [i|] eqn:Hfind.
  - destruct (findIndex_Some _ _ _ Hfind) as (x & Hx & Hpx & _).
    apply bool_decide_eq_true in Hpx.
    rewrite Nat.add_1_r. simpl. rewrite (take_S_r _ _ _ Hx).
    split_and!.
    + unfold crumbs_end_at_current. simpl. by rewrite last_snoc.
    + split; [|done]. intros [_ [=]]%app_nil.
    + done.
    + intros g [= <-]. split; [done|]. exists x. by rewrite last_snoc.
    + rewrite <- (take_S_r _ _ _ Hx), fmap_take. intros Hnd.
      apply (sublist_NoDup _ _ Hnd), sublist_take.
  - simpl. split_and!.
    + unfold crumbs_end_at_current. simpl. by rewrite last_snoc.
    + split; [|done]. intros [_ [=]]%app_nil.
    + done.
    + intros g [= <-]. split; [done|]. exists f. by rewrite last_snoc.
    + intros Hnd. rewrite fmap_app. apply NoDup_app.
      split_and!; [done| |apply NoDup_singleton].
      intros k (y & -> & Hy)%list_elem_of_fmap Heq%list_elem_of_singleton.
      apply (findIndex_None _ _ Hfind) in Hy.
      by apply bool_decide_eq_false in Hy.
Qed.

Lemma navigateToFolder_crumbs_witness :
  NoDup (Folder.id <$> folderPath
           (navigateToFolder (NavFolder f1_row)
              (navigateToFolder (NavFolder f2_row)
                 (navigateToFolder (NavFolder f1_row) nav_start)))).
Proof.
  apply (proj2 (proj2 (proj2 (proj2
           (navigateToFolder_crumbs (NavFolder f1_row)
              (navigateToFolder (NavFolder f2_row)
                 (navigateToFolder (NavFolder f1_row) nav_start))))))).
  by_decide.
Defined.

(** Calling [navigateToFolder] twice with the same argument gives the state
    that one call gives; and a call with a folder that is in the breadcrumb
    cuts the breadcrumb after that folder, while a call with any other
    folder appends it. *)
Theorem navigateToFolder_idempotent t s :
  navigateToFolder t (navigateToFolder t s) = navigateToFolder t s ∧
  (∀ f, t = NavFolder f →
        Folder.id f ∈ Folder.id <$> folderPath s →
        folderPath (navigateToFolder t s) `prefix_of` folderPath s) ∧
  (∀ f, t = NavFolder f →
        Folder.id f ∉ Folder.id <$> folderPath s →
        navigateToFolder t s = mkNav (Folder.id f) (folderPath s ++ [f])).
Proof.
  destruct t as [|f]; simpl; [split_and!; [done|by intros ? [=]..]|].
  destruct (findIndex _ (folderPath s)) as [i|] eqn:Hfind.
  - destruct (findIndex_Some _ _ _ Hfind) as (x & Hx & Hpx & Htake).
    apply bool_decide_eq_true in Hpx.
    rewrite Nat.add_1_r. simpl. rewrite Htake, Nat.add_1_r, take_idemp.
    split_and!; [done| |].
    + intros ? _ _. apply prefix_take.
    + intros g [= <-] Hout. exfalso. apply Hout. rewrite <- Hpx.
      apply list_elem_of_fmap_2. by eapply list_elem_of_lookup_2.
  - simpl. rewrite findIndex_snoc; [|done|by apply bool_decide_eq_true_2].
    rewrite Nat.add_1_r, take_ge by (rewrite length_app; simpl; lia).
    split_and!; [done| |by intros g [= <-]].
    intros g [= <-] (y & Hid & Hy)%list_elem_of_fmap. exfalso.
    apply (findIndex_None _ _ Hfind) in Hy.
    apply bool_decide_eq_false in Hy. by apply Hy.
Qed.

Lemma navigateToFolder_idempotent_witness :
  folderPath (navigateToFolder (NavFolder f1_row) (mkNav "f2" [f1_row; f2_row]))
    `prefix_of` [f1_row; f2_row].
Proof.
  apply (proj1 (proj2 (navigateToFolder_idempotent (NavFolder f1_row)
                         (mkNav "f2" [f1_row; f2_row]))) f1_row eq_refl).
  by_decide.
Defined.

Lemma blobs_change_only_by_upload_and_delete_witness :
  ∃ id f, DeleteFiles "a" = DeleteFiles id ∧
          get_file id scenario = Some f ∧
          File.name a_txt_row = File.name f.
Proof.
  destruct (proj2 (proj2 (blobs_change_only_by_upload_and_delete
                            (DeleteFiles "a") scenario))
              (File.name a_txt_row)) as [(id & [=] & _)|Hfile];
    [by_decide|by_decide|exact Hfile].
Defined.

(** ** An upload, listed and deleted again *)

(** A file that UploadFile has stored under a [folderId] is listed by
    ListContents of that same [folderId], next to the files that were listed
    there before and no others, and ListFiles lists it too. *)
Theorem post_upload_then_get_contents p s fileId now w :
  status (post_upload (Some p) (JsStr s) fileId now w).2 = 200%N →
  let w' := (post_upload (Some p) (JsStr s) fileId now w).1 in
  let row := File.mk fileId (storage_filename p) (part_originalname p)
               (part_mimetype p) (part_size p) (decode_folder s) now in
  ∃ fo fi,
    get_contents (JsStr s) w' = (w', json 200 (BContents fo fi)) ∧
    (∀ f, f ∈ fi ↔ f = row ∨ f ∈ select_files_by_folder (decode_folder s) w) ∧
    fo = select_folders_by_parent (decode_folder s) w ∧
    (∀ f, f ∈ select_all_files w' ↔ f = row ∨ f ∈ files w).
Proof.
  intros (q & _ & _ & Hq & ->)%post_upload_ok. simpl.
  pose proof (from_wire_str s) as Hs. rewrite Hq in Hs. simpl in Hs.
  subst q.
  eexists _, _. split; [apply get_contents_run|]. split_and!.
  - intros f. rewrite !elem_of_select_files. simpl.
    rewrite elem_of_app, list_elem_of_singleton. naive_solver.
  - done.
  - intros f. rewrite elem_of_select_all_files. simpl.
    rewrite elem_of_app, list_elem_of_singleton. naive_solver.
Qed.

Lemma post_upload_then_get_contents_witness :
  status (post_upload (Some b_txt) (JsStr "root") "b" "2024-01-01 00:00:03"
            scenario).2 = 200%N ∧
  ∃ fo fi,
    get_contents (JsStr "root")
      (post_upload (Some b_txt) (JsStr "root") "b" "2024-01-01 00:00:03"
         scenario).1 =
      ((post_upload (Some b_txt) (JsStr "root") "b" "2024-01-01 00:00:03"
          scenario).1, json 200 (BContents fo fi)) ∧
    File.mk "b" (storage_filename b_txt) "B.txt" "text/plain" 7 None
      "2024-01-01 00:00:03" ∈ fi.
Proof.
  assert (status (post_upload (Some b_txt) (JsStr "root") "b"
                    "2024-01-01 00:00:03" scenario).2 = 200%N) as Hok
    by (vm_compute; reflexivity).
  split; [exact Hok|].
  destruct (post_upload_then_get_contents b_txt "root" "b"
              "2024-01-01 00:00:03" scenario Hok)
    as (fo & fi & Hrun & Hin & _).
  exists fo, fi. split; [exact Hrun|]. apply Hin. by left.
Defined.

(** DeleteFile on the id that a successful UploadFile returned undoes the
    upload, provided the new blob can be removed: it answers 200, both
    tables are what they were before the upload, and the uploads directory
    is what it was, without the generated name. *)
Theorem post_upload_then_delete_files p folderId fileId now w :
  status (post_upload (Some p) folderId fileId now w).2 = 200%N →
  storage_filename p ∉ stuck w →
  let w' := (post_upload (Some p) folderId fileId now w).1 in
  (delete_files fileId w').2 = json 200 BSuccess ∧
  files (delete_files fileId w').1 = files w ∧
  folders (delete_files fileId w').1 = folders w ∧
  uploads (delete_files fileId w').1 = uploads w ∖ {[storage_filename p]}.
Proof.
  intros (q & _ & Hfresh & _ & ->)%post_upload_ok Hfree. simpl.
  set (row := File.mk fileId (storage_filename p) (part_originalname p)
                (part_mimetype p) (part_size p) q now).
  set (w' := log _ _).
  assert (get_file fileId w' = Some row) as Hget.
  { by apply (get_file_fresh_insert fileId row w w' Hfresh). }
  rewrite (delete_files_run fileId row w' Hget). simpl.
  rewrite bool_decide_eq_true_2 by set_solver.
  rewrite bool_decide_eq_false_2 by done. simpl.
  split_and!; [done| |done|set_solver].
  rewrite filter_app, filter_cons_False, filter_nil, app_nil_r by naive_solver.
  apply filter_all. intros f Hf Heq. apply Hfresh. rewrite <- Heq.
  by apply list_elem_of_fmap_2.
Qed.

Lemma post_upload_then_delete_files_witness :
  status (post_upload (Some b_txt) (JsStr "f1") "b" "2024-01-01 00:00:03"
            scenario).2 = 200%N ∧
  (storage_filename b_txt ∉ stuck scenario) ∧
  files (delete_files "b"
           (post_upload (Some b_txt) (JsStr "f1") "b" "2024-01-01 00:00:03"
              scenario).1).1 = files scenario.
Proof.
  assert (status (post_upload (Some b_txt) (JsStr "f1") "b"
                    "2024-01-01 00:00:03" scenario).2 = 200%N) as Hok
    by (vm_compute; reflexivity).
  assert (storage_filename b_txt ∉ stuck scenario) as Hfree by by_decide.
  split_and!; [exact Hok|exact Hfree|].
  exact (proj1 (proj2 (post_upload_then_delete_files b_txt (JsStr "f1") "b"
                         "2024-01-01 00:00:03" scenario Hok Hfree))).
Defined.
